(** * Vivian: the Viiiiva protocol core (libviv)

    A shallow embedding of the protocol engine of [p00ya/vivian]:
    CRC-8 and packet framing ([packet.cpp], [crc.cpp]), the burst tracker
    ([burst.cpp]), the time codec ([vivtime.cpp]), the directory reader
    ([raw_directory.cpp], [directory.cpp]), the three commands and the
    protocol manager ([manager.cpp]).

    Conventions.  A [uint8_t] is a [Z] in [0, 256), a [uint16_t] a [Z] in
    [0, 2^16), a [uint32_t] a [Z] in [0, 2^32); every narrowing
    conversion of the C++ code is written out as a [mod].  Buffers are
    [list Z].  Delegate calls are recorded, in order, as a list of
    [event]s. *)

From Stdlib Require Import ZArith List Lia Bool String ZifyBool.
From stdpp Require Import base option list gmap sorting.
Import ListNotations.

Local Open Scope Z_scope.

(** ** Bytes and buffers *)

Definition is_byte (b : Z) : Prop := 0 <= b < 256.

Definition is_byteb (b : Z) : bool := (0 <=? b) && (b <? 256).

(** [p[i]] for a buffer [p]. *)
Definition byte_at (p : list Z) (i : nat) : Z := nth i p 0.

(** [std::memcpy(dst, src, n)] on buffers: the first [n] bytes of [dst] are
    replaced by the first [n] bytes of [src]. *)
Definition memcpy (dst src : list Z) (n : nat) : list Z :=
  firstn n src ++ skipn n dst.

(** ** endian.hpp *)

Definition VLWriteLittleInt16 (x : Z) : list Z :=
  [x mod 256; Z.shiftr x 8 mod 256].

Definition VLWriteLittleInt32 (x : Z) : list Z :=
  [x mod 256; Z.shiftr x 8 mod 256; Z.shiftr x 16 mod 256;
   Z.shiftr x 24 mod 256].

Definition OSReadLittleInt16 (p : list Z) (offset : nat) : Z :=
  Z.lor (byte_at p offset) (Z.shiftl (byte_at p (offset + 1)) 8) mod 2 ^ 16.

Definition OSReadLittleInt32 (p : list Z) (offset : nat) : Z :=
  Z.lor (Z.lor (Z.lor (byte_at p offset)
                      (Z.shiftl (byte_at p (offset + 1)) 8))
               (Z.shiftl (byte_at p (offset + 2)) 16))
        (Z.shiftl (byte_at p (offset + 3)) 24) mod 2 ^ 32.

(** ** crc.cpp *)

Definition kPoly : Z := 7.

(** One round of the loop body of [crc8_precalc]; the result is stored in a
    [uint8_t]. *)
Definition crc8_round (T_poly x : Z) : Z :=
  (if Z.eqb (Z.land x 128) 0
   then Z.shiftl x 1
   else Z.lxor (Z.shiftl x 1) T_poly) mod 256.

Definition crc8_precalc (T_poly x : Z) : Z :=
  Nat.iter 8 (crc8_round T_poly) x.

Definition crc_init_lookup (T_poly : Z) : list Z :=
  map (fun i => crc8_precalc T_poly (Z.of_nat i)) (seq 0 256).

Definition lookup : list Z := Eval vm_compute in crc_init_lookup kPoly.

Definition crc (data : list Z) : Z :=
  fold_left (fun crc p => nth (Z.to_nat (Z.lxor crc p)) lookup 0) data 0.

(** ** packet.h / packet.cpp *)

Definition kVLSeqnoStart : Z := 0.
Definition kVLSeqnoEnd : Z := 7.
Definition kVLPacketMaxLength : Z := 20.

Definition kPacketOffsetLength : Z := 1.
Definition kPacketOffsetPayload : Z := 6.
Definition kPacketMinLength : Z := 6.
Definition kPacketMaxLength : Z := 20.
Definition kPeerHost : Z := 3.
Definition kPeerViiiiva : Z := 1.
Definition kSeqnoModulus : Z := 6.

(** [struct VLPacket]: packed, 20 bytes. [cmd] holds 2 bytes and [payload] 14. *)
Record VLPacket := mkVLPacket {
  pkt_crc : Z;
  payload_length : Z;
  sender : Z;
  receiver : Z;
  cmd : list Z;
  payload : list Z
}.

(** The struct is packed and POD and the code reads and writes it through
    byte pointers; these two functions are that type punning. *)
Definition packet_bytes (p : VLPacket) : list Z :=
  pkt_crc p :: payload_length p :: sender p :: receiver p ::
  firstn 2 (cmd p ++ [0; 0]) ++ firstn 14 (payload p ++ replicate 14 0).

Definition bytes_packet (b : list Z) : VLPacket :=
  {| pkt_crc := byte_at b 0;
     payload_length := byte_at b 1;
     sender := byte_at b 2;
     receiver := byte_at b 3;
     cmd := firstn 2 (skipn 4 b);
     payload := firstn 14 (skipn 6 b) |}.

(** [VLPacket packet = {0};] *)
Definition VLPacket_zero : VLPacket :=
  {| pkt_crc := 0; payload_length := 0; sender := 0; receiver := 0;
     cmd := [0; 0]; payload := replicate 14 0 |}.

Definition VLPacketLength (packet : VLPacket) : Z :=
  payload_length packet + kPacketOffsetPayload.

Definition VLPacketSeqno (packet : VLPacket) : Z :=
  Z.shiftr (pkt_crc packet) 5.

Definition VLGetNextSeqno (seqno : Z) : Z :=
  ((seqno mod kSeqnoModulus) + 1) mod 256.

Definition VLDoesSeqnoMatch (seqno expected : Z) : bool :=
  (seqno =? expected) || (seqno =? kVLSeqnoEnd).

(** [VLMakePacket(seqno, cmd, payload, payload_length)] with
    [payload_length = length payload]; the assertions ([seqno <= 7], at most
    14 payload bytes) are the caller's obligations. *)
Definition VLMakePacket (seqno cmd_id : Z) (payload0 : list Z) : VLPacket :=
  let payload_len := length payload0 in
  let packet :=
    {| pkt_crc := 0;
       payload_length := Z.of_nat payload_len mod 256;
       sender := kPeerHost;
       receiver := kPeerViiiiva;
       cmd := VLWriteLittleInt16 cmd_id;
       payload := memcpy (replicate 14 0) payload0 payload_len |} in
  let seqno1 := Z.shiftl seqno 5 mod 256 in
  let seqno2 :=
    Z.lor seqno1
      (Z.land 31
         (crc (firstn (payload_len + Z.to_nat kPacketOffsetPayload
                       - Z.to_nat kPacketOffsetLength)
                 (skipn 1 (packet_bytes packet))))) in
  {| pkt_crc := seqno2;
     payload_length := payload_length packet;
     sender := sender packet;
     receiver := receiver packet;
     cmd := cmd packet;
     payload := payload packet |}.

Definition VLMakeAckPacket (cmd_id : Z) : VLPacket :=
  VLMakePacket kVLSeqnoEnd (Z.lor cmd_id 32768 mod 2 ^ 16) [].

(** [VLWritePacket(dst, packet)]: the bytes written to [dst]. *)
Definition VLWritePacket (packet : VLPacket) : list Z :=
  firstn (Z.to_nat (kPacketOffsetPayload + payload_length packet))
         (packet_bytes packet).

(** [VLReadPacket(packet, src, length)] with [length = length src].  The
    first component is the return code, the second the contents of
    [*packet] afterwards ([packet] on entry is whatever the caller's
    struct held). *)
Definition VLReadPacket (packet : VLPacket) (src : list Z) : Z * VLPacket :=
  let len := Z.of_nat (length src) in
  if (len >? kPacketMaxLength) || (len <? kPacketMinLength) ||
     negb (len =? kPacketOffsetPayload + byte_at src 1)
  then (-1, packet)
  else
    let packet' := bytes_packet (memcpy (packet_bytes packet) src (length src)) in
    if negb (Z.land 31 (pkt_crc packet') =?
             Z.land 31 (crc (firstn (Z.to_nat (len - kPacketOffsetLength))
                                    (skipn 1 (packet_bytes packet')))))
    then (-2, packet')
    else (0, packet').

(** Returns non-zero if the packet is not marked as coming from Viiiiva. *)
Definition VLValidatePacketFromViva (packet : VLPacket) : Z :=
  if negb (sender packet =? kPeerViiiiva) || negb (receiver packet =? kPeerHost)
  then 1 else 0.

(** ** burst.hpp / burst.cpp *)

Definition kSeqnoUninitialized : Z := 0.
Definition kSeqnoInvalid : Z := 8.

Record BurstState := mkBurstState { seqno : Z }.

(** [class Burst] wraps a [BurstState]. *)
Record Burst := mkBurst { burst_state_ : BurstState }.

(** [Burst()] *)
Definition Burst_new : Burst := mkBurst (mkBurstState 0).

Definition IsEmpty (b : Burst) : bool :=
  seqno (burst_state_ b) =? kSeqnoUninitialized.

Definition HasEnded (b : Burst) : bool :=
  seqno (burst_state_ b) =? kVLSeqnoEnd.

Definition IsValid (b : Burst) : bool :=
  negb (seqno (burst_state_ b) =? kSeqnoInvalid).

Definition Burst_ReadPacket (b : Burst) (packet : VLPacket) : Burst :=
  let s := VLPacketSeqno packet in
  if negb (VLDoesSeqnoMatch s (seqno (burst_state_ b))) ||
     (seqno (burst_state_ b) =? kVLSeqnoEnd)
  then mkBurst (mkBurstState kSeqnoInvalid)
  else if s =? kVLSeqnoEnd
  then mkBurst (mkBurstState s)
  else mkBurst (mkBurstState (VLGetNextSeqno s)).

(** ** vivtime.cpp *)

Definition kAntEpoch : Z := 631065600.

(** [time_t] is a signed 64-bit integer on the supported hosts. *)
Definition is_time_t (t : Z) : Prop := - 2 ^ 63 <= t < 2 ^ 63.

Definition VLGetVivaTimeFromPosix (posix_time : Z) : Z :=
  (posix_time - kAntEpoch) mod 2 ^ 32.

(** Conversion of a [uint64_t] to the signed [time_t]. *)
Definition to_time_t (x : Z) : Z := (x + 2 ^ 63) mod 2 ^ 64 - 2 ^ 63.

(** [static_cast<uint64_t>(viva_time) + kAntEpoch], returned as [time_t]. *)
Definition VLGetPosixTimeFromViva (viva_time : Z) : Z :=
  to_time_t ((viva_time + kAntEpoch) mod 2 ^ 64).


(** ** raw_directory.h / raw_directory.cpp *)

(** [struct VLRawDirectoryHeader] (also named [VLDirectoryHeader]): packed,
    16 bytes. *)
Record VLRawDirectoryHeader := mkVLRawDirectoryHeader {
  version : Z;
  record_length : Z;
  time_format : Z;
  reserved_3_ : list Z;
  hdr_time : list Z;
  reserved_8_ : list Z
}.

(** [struct VLRawDirectoryEntry]: packed, 16 bytes. *)
Record VLRawDirectoryEntry := mkVLRawDirectoryEntry {
  raw_index : list Z;
  raw_file_type : Z;
  raw_subtype : Z;
  raw_file_id : list Z;
  raw_type_flags : Z;
  raw_flags : Z;
  raw_length : list Z;
  raw_time : list Z
}.

(** [std::memcpy(dir, src, sizeof(VLDirectoryHeader))] *)
Definition bytes_header (b : list Z) : VLRawDirectoryHeader :=
  {| version := byte_at b 0;
     record_length := byte_at b 1;
     time_format := byte_at b 2;
     reserved_3_ := firstn 5 (skipn 3 b);
     hdr_time := firstn 4 (skipn 8 b);
     reserved_8_ := firstn 4 (skipn 12 b) |}.

(** [std::memcpy(entry, src, sizeof(VLRawDirectoryEntry))] *)
Definition bytes_entry (b : list Z) : VLRawDirectoryEntry :=
  {| raw_index := firstn 2 b;
     raw_file_type := byte_at b 2;
     raw_subtype := byte_at b 3;
     raw_file_id := firstn 2 (skipn 4 b);
     raw_type_flags := byte_at b 6;
     raw_flags := byte_at b 7;
     raw_length := firstn 4 (skipn 8 b);
     raw_time := firstn 4 (skipn 12 b) |}.

Definition kExpectedDirectoryVersion : Z := 1.
Definition kExpectedTimeFormat : Z := 0.
Definition kExpectedRecordLength : Z := 16.

(** [VLReadDirectoryHeader(dir, src, length)] with [length = length src]:
    the return code and the contents of [*dir].  [None] is the failed
    assertion [sizeof(VLDirectoryHeader) <= length]. *)
Definition VLReadDirectoryHeader (src : list Z)
  : option (Z * VLRawDirectoryHeader) :=
  if (length src <? 16)%nat then None
  else
    let dir := bytes_header src in
    if negb (version dir =? kExpectedDirectoryVersion) then Some (-1, dir)
    else if negb (record_length dir =? kExpectedRecordLength) then Some (-2, dir)
    else if negb (time_format dir =? kExpectedTimeFormat) then Some (-3, dir)
    else Some (16, dir).

(** [VLReadNextDirectoryEntry(entry, src, length)] with [length = length src];
    [entry] is left alone when the buffer is too short. *)
Definition VLReadNextDirectoryEntry (entry : VLRawDirectoryEntry) (src : list Z)
  : Z * VLRawDirectoryEntry :=
  if (length src <? 16)%nat then (-1, entry)
  else (16, bytes_entry src).

(** ** directory_entry.h / directory.hpp / directory.cpp *)

Record VLDirectoryEntry := mkVLDirectoryEntry {
  posix_time : Z;
  de_length : Z;
  de_index : Z;
  de_file_type : Z
}.

(** [class DirectoryEntry] wraps a raw entry. *)
Record DirectoryEntry := mkDirectoryEntry { entry_ : VLRawDirectoryEntry }.

Definition DirectoryEntry_file_type (e : DirectoryEntry) : Z :=
  Z.lor (raw_file_type (entry_ e)) (Z.shiftl (raw_subtype (entry_ e)) 8)
  mod 2 ^ 16.

Definition DirectoryEntry_index (e : DirectoryEntry) : Z :=
  OSReadLittleInt16 (raw_index (entry_ e)) 0.

Definition DirectoryEntry_length (e : DirectoryEntry) : Z :=
  OSReadLittleInt32 (raw_length (entry_ e)) 0.

Definition DirectoryEntry_time (e : DirectoryEntry) : Z :=
  VLGetPosixTimeFromViva (OSReadLittleInt32 (raw_time (entry_ e)) 0).

Definition DirectoryEntry_entry (e : DirectoryEntry) : VLDirectoryEntry :=
  {| posix_time := DirectoryEntry_time e;
     de_length := DirectoryEntry_length e;
     de_index := DirectoryEntry_index e;
     de_file_type := DirectoryEntry_file_type e |}.

(** [class DirectoryHeader] wraps a raw header. *)
Record DirectoryHeader := mkDirectoryHeader { header_ : VLRawDirectoryHeader }.

Definition DirectoryHeader_time (h : DirectoryHeader) : Z :=
  VLGetPosixTimeFromViva (OSReadLittleInt32 (hdr_time (header_ h)) 0).

Record Directory := mkDirectory {
  dir_header_ : DirectoryHeader;
  dir_entries_ : gmap Z DirectoryEntry
}.

(** [std::map::emplace]: the element is inserted only if the key is not
    in the map yet. *)
Definition map_emplace (k : Z) (v : DirectoryEntry)
    (m : gmap Z DirectoryEntry) : gmap Z DirectoryEntry :=
  match m !! k with
  | Some _ => m
  | None => <[k := v]> m
  end.

(** [class Directory::Reader]; [src_] is the buffer from [src_] to [end_]. *)
Record Reader := mkReader {
  entries_ : gmap Z DirectoryEntry;
  hdr_ : VLRawDirectoryHeader;
  src_ : list Z;
  valid_ : bool
}.

(** The struct members that the constructor leaves uninitialised. *)
Definition VLRawDirectoryHeader_zero : VLRawDirectoryHeader := bytes_header [].
Definition VLRawDirectoryEntry_zero : VLRawDirectoryEntry := bytes_entry [].

(** [Directory::Reader::Reader(src, length)] *)
Definition Reader_new (src : list Z) : Reader :=
  {| entries_ := ∅; hdr_ := VLRawDirectoryHeader_zero; src_ := src;
     valid_ := false |}.

(** The [for] loop of [Directory::Reader::Read]: [p] is the buffer from the
    loop pointer to [end_].  The result is [Some (false, _)] on the early
    [return false], [Some (true, _)] when the loop ends, and [None] when
    [fuel] iterations were not enough. *)
Fixpoint Read_loop (fuel : nat) (p : list Z) (entries : gmap Z DirectoryEntry)
  : option (bool * gmap Z DirectoryEntry) :=
  match p with
  | [] => Some (true, entries)
  | _ :: _ =>
      match fuel with
      | O => None
      | S fuel' =>
          let '(read, raw) :=
            VLReadNextDirectoryEntry VLRawDirectoryEntry_zero p in
          if read <? 0 then Some (false, entries)
          else
            let entry := mkDirectoryEntry raw in
            Read_loop fuel' (skipn (Z.to_nat read) p)
              (map_emplace (DirectoryEntry_index entry) entry entries)
      end
  end.

(** [Directory::Reader::Read()]: the returned flag and the reader
    afterwards.  [None] is a failed assertion. *)
Definition Read (r : Reader) : option (bool * Reader) :=
  let r0 := {| entries_ := ∅; hdr_ := hdr_ r; src_ := src_ r;
               valid_ := valid_ r |} in
  match VLReadDirectoryHeader (src_ r) with
  | None => None
  | Some (read, hdr) =>
      let r1 := {| entries_ := entries_ r0; hdr_ := hdr; src_ := src_ r0;
                   valid_ := valid_ r0 |} in
      if read <? 0 then Some (false, r1)
      else
        match Read_loop (length (src_ r)) (skipn (Z.to_nat read) (src_ r))
                (entries_ r1) with
        | None => None
        | Some (false, entries) =>
            Some (false, {| entries_ := entries; hdr_ := hdr;
                            src_ := src_ r; valid_ := valid_ r |})
        | Some (true, entries) =>
            Some (true, {| entries_ := entries; hdr_ := hdr;
                           src_ := src_ r; valid_ := true |})
        end
  end.

(** [Directory::Reader::get()] *)
Definition Reader_get (r : Reader) : Directory :=
  {| dir_header_ := mkDirectoryHeader (hdr_ r); dir_entries_ := entries_ r |}.

(** ** manager_error_code.h *)

Inductive VLManagerErrorCode :=
| kVLManagerErrorNone
| kVLManagerErrorBadHeader
| kVLManagerErrorBadPayload
| kVLManagerErrorUnexpected.

(** ** The delegate (manager.hpp, manager_c_bridge.h)

    Every call that the manager or a completion callback makes on the
    delegate is recorded as an event.  [AssertFailed] is not a delegate
    call: it marks a failed [assert], after which nothing else runs. *)
Inductive event :=
| WriteValue (value : list Z)
| DidStartWaiting
| DidFinishWaiting
| DidError (code : VLManagerErrorCode) (msg : string)
| DidParseDirectoryEntry (entry : VLDirectoryEntry)
| DidFinishParsingDirectory
| DidDownloadFile (index : Z) (data : list Z)
| DidEraseFile (index : Z) (ok : bool)
| DidSetTime (ok : bool)
| AssertFailed.

(** ** command.hpp / command.cpp *)

Definition AcknowledgementForCommand (cmd_id : Z) : Z :=
  Z.lor cmd_id 0x8000 mod 2 ^ 16.

(** [viv::ReadAck(packet, cmd)] *)
Definition ReadAck (packet : VLPacket) (cmd_id : Z) : Z :=
  let err := VLValidatePacketFromViva packet in
  if negb (err =? 0) then err
  else if negb (OSReadLittleInt16 (cmd packet) 0
                =? AcknowledgementForCommand cmd_id)
  then -2
  else 0.

(** ** download_command.hpp / download_command.cpp *)

Definition kCommandDownload : Z := 0x010b.
Definition kCommandDownloadReply : Z := 0x030b.
Definition kDirectoryIndex : Z := 0.
Definition kDirectoryRecordLength : Z := 16.

(** The first three fields are those of the base class [CommandWithReply]. *)
Record DownloadCommand := mkDownloadCommand {
  dl_cmd_ : Z;
  dl_reply_cmd_ : Z;
  dl_has_ack_ : bool;
  buf_ : list Z;
  dl_on_finish_ : Z -> list Z -> list event;
  burst_ : Burst;
  offset_ : Z;
  length_ : Z;
  dl_index_ : Z
}.

(** [DownloadCommand(index, offset, length, on_finish)] *)
Definition DownloadCommand_new (index offset len : Z)
    (on_finish : Z -> list Z -> list event) : DownloadCommand :=
  {| dl_cmd_ := kCommandDownload; dl_reply_cmd_ := kCommandDownloadReply;
     dl_has_ack_ := false; buf_ := []; dl_on_finish_ := on_finish;
     burst_ := Burst_new; offset_ := offset; length_ := len;
     dl_index_ := index |}.

(** [DownloadCommand(index, on_finish)] *)
Definition DownloadCommand_new2 (index : Z)
    (on_finish : Z -> list Z -> list event) : DownloadCommand :=
  DownloadCommand_new index 0 0xffffffff on_finish.

Definition DownloadCommand_MakeCommandPacket (c : DownloadCommand) : VLPacket :=
  let payload0 :=
    VLWriteLittleInt16 (dl_index_ c) ++ VLWriteLittleInt32 (offset_ c)
      ++ VLWriteLittleInt32 (length_ c) in
  VLMakePacket kVLSeqnoEnd kCommandDownload payload0.

(** [buf_.reserve(n)] either returns, and then only the capacity of the
    [std::vector] has changed, or it throws [std::length_error] or
    [std::bad_alloc] and the exception leaves [ReadAck] with the command as
    it was.  Which of the two happens is up to the allocator:
    [reserve_returns n] tells whether the call returns.  The result [None]
    is the exception.  [length * kDirectoryRecordLength] is computed in
    [std::size_t], 64 bits wide. *)
Definition DownloadCommand_ReadAck (reserve_returns : Z -> bool)
    (c : DownloadCommand) (packet : VLPacket)
  : option (Z * DownloadCommand) :=
  let err := ReadAck packet kCommandDownload in
  if negb (err =? 0) then Some (err, c)
  else
    let len := OSReadLittleInt32 (payload packet) 6 in
    if negb (dl_index_ c =? OSReadLittleInt16 (payload packet) 0) ||
       negb (offset_ c =? OSReadLittleInt32 (payload packet) 2) ||
       (len >? length_ c)
    then Some (-3, c)
    else
      let n :=
        if dl_index_ c =? kDirectoryIndex
        then (len * kDirectoryRecordLength) mod 2 ^ 64
        else len in
      if reserve_returns n
      then
        Some (0, {| dl_cmd_ := dl_cmd_ c; dl_reply_cmd_ := dl_reply_cmd_ c;
                    dl_has_ack_ := true; buf_ := buf_ c;
                    dl_on_finish_ := dl_on_finish_ c; burst_ := burst_ c;
                    offset_ := offset_ c; length_ := length_ c;
                    dl_index_ := dl_index_ c |})
      else None.

Definition DownloadCommand_ReadReply (c : DownloadCommand) (packet : VLPacket)
  : Z * DownloadCommand :=
  if negb (OSReadLittleInt16 (cmd packet) 0 =? kCommandDownloadReply) ||
     (payload_length packet =? 0) ||
     negb (VLValidatePacketFromViva packet =? 0)
  then (-1, c)
  else
    let burst := Burst_ReadPacket (burst_ c) packet in
    if negb (IsValid burst) then (-2, c)
    else
      (payload_length packet,
       {| dl_cmd_ := dl_cmd_ c; dl_reply_cmd_ := dl_reply_cmd_ c;
          dl_has_ack_ := dl_has_ack_ c;
          buf_ := buf_ c
                  ++ firstn (Z.to_nat (payload_length packet)) (payload packet);
          dl_on_finish_ := dl_on_finish_ c; burst_ := burst;
          offset_ := offset_ c; length_ := length_ c;
          dl_index_ := dl_index_ c |}).

(** [CommandWithReply::ReadPacket]; [None] when [ReadAck] throws. *)
Definition DownloadCommand_ReadPacket (reserve_returns : Z -> bool)
    (c : DownloadCommand) (packet : VLPacket)
  : option (Z * DownloadCommand) :=
  if dl_has_ack_ c then Some (DownloadCommand_ReadReply c packet)
  else DownloadCommand_ReadAck reserve_returns c packet.

(** The flag returned and the delegate calls made by the callback. *)
Definition DownloadCommand_MaybeFinish (c : DownloadCommand) : bool * list event :=
  if dl_has_ack_ c && HasEnded (burst_ c)
  then (true, dl_on_finish_ c (dl_index_ c) (buf_ c))
  else (false, []).

(** ** erase_command.hpp / erase_command.cpp *)

Definition kCommandErase : Z := 0x040b.
Definition kCommandEraseReply : Z := 0x050b.

Record EraseCommand := mkEraseCommand {
  er_cmd_ : Z;
  er_reply_cmd_ : Z;
  er_has_ack_ : bool;
  er_on_finish_ : bool -> list event;
  er_index_ : Z;
  is_ok_ : bool;
  is_finished_ : bool
}.

Definition EraseCommand_new (index : Z) (on_finish : bool -> list event)
  : EraseCommand :=
  {| er_cmd_ := kCommandErase; er_reply_cmd_ := kCommandEraseReply;
     er_has_ack_ := false; er_on_finish_ := on_finish; er_index_ := index;
     is_ok_ := false; is_finished_ := false |}.

Definition EraseCommand_MakeCommandPacket (c : EraseCommand) : VLPacket :=
  VLMakePacket kVLSeqnoEnd kCommandErase (VLWriteLittleInt16 (er_index_ c)).

(** [CommandWithReply::ReadAck], which [EraseCommand] inherits. *)
Definition EraseCommand_ReadAck (c : EraseCommand) (packet : VLPacket)
  : Z * EraseCommand :=
  let err := ReadAck packet (er_cmd_ c) in
  if err =? 0
  then (err, {| er_cmd_ := er_cmd_ c; er_reply_cmd_ := er_reply_cmd_ c;
                er_has_ack_ := true; er_on_finish_ := er_on_finish_ c;
                er_index_ := er_index_ c; is_ok_ := is_ok_ c;
                is_finished_ := is_finished_ c |})
  else (err, c).

Definition EraseCommand_ReadReply (c : EraseCommand) (packet : VLPacket)
  : Z * EraseCommand :=
  if negb (er_has_ack_ c) || is_finished_ c then (-1, c)
  else if negb (OSReadLittleInt16 (cmd packet) 0 =? kCommandEraseReply) ||
          negb (payload_length packet =? 1) ||
          negb (byte_at (payload packet) 0 =? 0) ||
          negb (VLValidatePacketFromViva packet =? 0)
  then (-2, c)
  else (0, {| er_cmd_ := er_cmd_ c; er_reply_cmd_ := er_reply_cmd_ c;
              er_has_ack_ := er_has_ack_ c; er_on_finish_ := er_on_finish_ c;
              er_index_ := er_index_ c; is_ok_ := is_ok_ c;
              is_finished_ := true |}).

(** [CommandWithReply::ReadPacket] *)
Definition EraseCommand_ReadPacket (c : EraseCommand) (packet : VLPacket)
  : Z * EraseCommand :=
  if er_has_ack_ c then EraseCommand_ReadReply c packet
  else EraseCommand_ReadAck c packet.

(** [EraseCommand::MaybeFinish] only tests the two flags; it makes no call
    to [on_finish_]. *)
Definition EraseCommand_MaybeFinish (c : EraseCommand) : bool * list event :=
  (er_has_ack_ c && is_finished_ c, []).

(** ** set_time_command.hpp / set_time_command.cpp *)

Definition kCommandSetTime : Z := 0x0108.

Record SetTimeCommand := mkSetTimeCommand {
  st_on_finish_ : bool -> list event;
  time_ : Z;
  st_has_ack_ : bool
}.

Definition SetTimeCommand_new (ant_time : Z) (on_finish : bool -> list event)
  : SetTimeCommand :=
  {| st_on_finish_ := on_finish; time_ := ant_time; st_has_ack_ := false |}.

Definition SetTimeCommand_MakeCommandPacket (c : SetTimeCommand) : VLPacket :=
  VLMakePacket kVLSeqnoEnd kCommandSetTime (VLWriteLittleInt32 (time_ c)).

Definition SetTimeCommand_ReadPacket (c : SetTimeCommand) (packet : VLPacket)
  : Z * SetTimeCommand :=
  let err := ReadAck packet kCommandSetTime in
  if err =? 0
  then (err, {| st_on_finish_ := st_on_finish_ c; time_ := time_ c;
                st_has_ack_ := true |})
  else (err, c).

Definition SetTimeCommand_MaybeFinish (c : SetTimeCommand) : bool * list event :=
  (st_has_ack_ c, st_on_finish_ c (st_has_ack_ c)).

(** ** Dynamic dispatch over the class hierarchy of command.hpp *)

Inductive CommandWithReply :=
| RDownload (c : DownloadCommand)
| RErase (c : EraseCommand).

Inductive Command :=
| CSetTime (c : SetTimeCommand)
| CWithReply (r : CommandWithReply).

(** The virtual call [ReadPacket]; [None] when the call throws. *)
Definition CommandWithReply_ReadPacket (reserve_returns : Z -> bool)
    (r : CommandWithReply) (packet : VLPacket)
  : option (Z * CommandWithReply) :=
  match r with
  | RDownload c =>
      match DownloadCommand_ReadPacket reserve_returns c packet with
      | Some (res, c') => Some (res, RDownload c')
      | None => None
      end
  | RErase c =>
      let '(res, c') := EraseCommand_ReadPacket c packet in
      Some (res, RErase c')
  end.

Definition CommandWithReply_MaybeFinish (r : CommandWithReply)
  : bool * list event :=
  match r with
  | RDownload c => DownloadCommand_MaybeFinish c
  | RErase c => EraseCommand_MaybeFinish c
  end.

Definition CommandWithReply_MakeCommandPacket (r : CommandWithReply) : VLPacket :=
  match r with
  | RDownload c => DownloadCommand_MakeCommandPacket c
  | RErase c => EraseCommand_MakeCommandPacket c
  end.

Definition CommandWithReply_name (r : CommandWithReply) : string :=
  match r with
  | RDownload _ => "download command"
  | RErase _ => "erase command"
  end.

(** [EraseCommand] overrides the default [false]. *)
Definition ShouldAckReply (r : CommandWithReply) : bool :=
  match r with
  | RDownload _ => false
  | RErase _ => true
  end.

Definition reply_cmd_ (r : CommandWithReply) : Z :=
  match r with
  | RDownload c => dl_reply_cmd_ c
  | RErase c => er_reply_cmd_ c
  end.

Definition MakeResponseAckPacket (r : CommandWithReply) : VLPacket :=
  VLMakeAckPacket (reply_cmd_ r).

Definition Command_ReadPacket (reserve_returns : Z -> bool) (c : Command)
    (packet : VLPacket) : option (Z * Command) :=
  match c with
  | CSetTime s =>
      let '(res, s') := SetTimeCommand_ReadPacket s packet in
      Some (res, CSetTime s')
  | CWithReply r =>
      match CommandWithReply_ReadPacket reserve_returns r packet with
      | Some (res, r') => Some (res, CWithReply r')
      | None => None
      end
  end.

Definition Command_MaybeFinish (c : Command) : bool * list event :=
  match c with
  | CSetTime s => SetTimeCommand_MaybeFinish s
  | CWithReply r => CommandWithReply_MaybeFinish r
  end.

Definition Command_MakeCommandPacket (c : Command) : VLPacket :=
  match c with
  | CSetTime s => SetTimeCommand_MakeCommandPacket s
  | CWithReply r => CommandWithReply_MakeCommandPacket r
  end.

Definition Command_name (c : Command) : string :=
  match c with
  | CSetTime _ => "set time command"
  | CWithReply r => CommandWithReply_name r
  end.

(** ** manager.hpp / manager.cpp *)

(** [command_] and [response_] are the two [unique_ptr] slots.  The
    re-entrancy flag [busy_] is left out: delegate calls are recorded, not
    run, so no callback can call back into the manager. *)
Record Manager := mkManager {
  command_ : option Command;
  response_ : option CommandWithReply
}.

(** [Manager(delegate)] *)
Definition Manager_new : Manager :=
  {| command_ := None; response_ := None |}.

(** Iteration over a [std::map] visits the keys in ascending order. *)
Definition key_le (x y : Z * DirectoryEntry) : Prop := x.1 <= y.1.

#[local] Instance key_le_dec : RelDecision key_le.
Proof. intros x y. unfold key_le. apply _. Defined.

Definition entries_in_order (m : gmap Z DirectoryEntry)
  : list (Z * DirectoryEntry) :=
  merge_sort key_le (map_to_list m).

(** The [on_finish] lambda of [Manager::DownloadDirectory]. *)
Definition DownloadDirectory_on_finish (index : Z) (data : list Z) : list event :=
  match Read (Reader_new data) with
  | None => [AssertFailed]
  | Some (false, _) =>
      [DidError kVLManagerErrorBadHeader "Error parsing directory"]
  | Some (true, reader) =>
      let dir := Reader_get reader in
      map (fun pair => DidParseDirectoryEntry (DirectoryEntry_entry pair.2))
          (entries_in_order (dir_entries_ dir))
      ++ [DidFinishParsingDirectory]
  end.

(** The [on_finish] lambda of [Manager::DownloadFile]. *)
Definition DownloadFile_on_finish (index : Z) (data : list Z) : list event :=
  [DidDownloadFile index data].

(** The [on_finish] lambda of [Manager::EraseFile]. *)
Definition EraseFile_on_finish (index : Z) (success : bool) : list event :=
  [DidEraseFile index success].

(** Modelled from the spec: the [on_finish] callback that [Manager::SetTime]
    hands to [SetTimeCommand].  The [manager.cpp] under src/ still calls the
    one-argument constructor of the older [set_time_command.hpp], while
    [set_time_command.cpp] and the newer header have the callback; the spec
    says that on completion [set_time] emits [did_set_time(ok)]. *)
Definition SetTime_on_finish (ok : bool) : list event :=
  [DidSetTime ok].

Section ManagerOperations.

(** What the delegate's [WriteValue] returns for a value. *)
Variable delegate_WriteValue : list Z -> Z.

(** The contents of the uninitialised local [VLPacket packet] of
    [NotifyValue]. *)
Variable uninit : VLPacket.

(** Whether [buf_.reserve(n)] returns, see [DownloadCommand_ReadAck]. *)
Variable reserve_returns : Z -> bool.

(** [Manager::WritePacket(packet, wait_for_ack)]: the delegate calls. *)
Definition WritePacket (packet : VLPacket) (wait_for_ack : bool) : list event :=
  let value := firstn (Z.to_nat (VLPacketLength packet)) (packet_bytes packet) in
  if delegate_WriteValue value <? 0
  then [WriteValue value; DidError kVLManagerErrorUnexpected "WriteValue"]
  else if wait_for_ack
  then [WriteValue value; DidStartWaiting]
  else [WriteValue value].

(** [Command &command = (response_) ? *response_ : *command_;] *)
Definition selected_command (m : Manager) : option Command :=
  match response_ m with
  | Some r => Some (CWithReply r)
  | None => command_ m
  end.

(** The reference [command] aliases the slot it was taken from: the state
    that [ReadPacket] leaves in [command] is the state of that slot. *)
Definition store_selected (m : Manager) (c : Command) : Manager :=
  match response_ m with
  | Some r =>
      {| command_ := command_ m;
         response_ := Some (match c with CWithReply r' => r' | CSetTime _ => r end) |}
  | None => {| command_ := Some c; response_ := None |}
  end.

(** The new state and the delegate calls, or [None] when the exception of
    [ReadPacket] leaves the call: no delegate call has been made by then and
    no slot has changed. *)
Definition NotifyValue (m : Manager) (value : list Z)
  : option (Manager * list event) :=
  match selected_command m with
  | None =>
      Some (m, [DidError kVLManagerErrorUnexpected
                  "Unexpected value notification"])
  | Some command =>
      let '(err, packet) := VLReadPacket uninit value in
      if negb (err =? 0)
      then Some (m, [DidError kVLManagerErrorBadHeader
                       (Command_name command ++ ": invalid value notification")])
      else
        match Command_ReadPacket reserve_returns command packet with
        | None => None
        | Some (res, command') =>
            let m1 := store_selected m command' in
            if res <? 0
            then Some (m1, [DidError kVLManagerErrorBadPayload
                              (Command_name command'
                               ++ ": invalid value notification")])
            else
              let '(finished, callbacks) := Command_MaybeFinish command' in
              if finished
              then
                let ack :=
                  match response_ m1 with
                  | Some r =>
                      if ShouldAckReply r
                      then WritePacket (MakeResponseAckPacket r) false
                      else []
                  | None => []
                  end in
                Some ({| command_ := command_ m1; response_ := None |},
                      callbacks ++ [DidFinishWaiting] ++ ack)
              else Some (m1, callbacks)
        end
  end.

Definition NotifyTimeout (m : Manager) : Manager * list event :=
  match command_ m with
  | Some c =>
      ({| command_ := None; response_ := response_ m |},
       [DidError kVLManagerErrorUnexpected
          (Command_name c ++ ": timeout waiting for command");
        DidFinishWaiting])
  | None => (m, [])
  end.

Definition DownloadDirectory (m : Manager) : Manager * list event :=
  let r := RDownload (DownloadCommand_new2 0 DownloadDirectory_on_finish) in
  ({| command_ := None; response_ := Some r |},
   WritePacket (CommandWithReply_MakeCommandPacket r) true).

Definition DownloadFile (m : Manager) (index : Z) : Manager * list event :=
  let r := RDownload (DownloadCommand_new2 index DownloadFile_on_finish) in
  ({| command_ := None; response_ := Some r |},
   WritePacket (CommandWithReply_MakeCommandPacket r) true).

Definition EraseFile (m : Manager) (index : Z) : Manager * list event :=
  let r := RErase (EraseCommand_new index (EraseFile_on_finish index)) in
  ({| command_ := None; response_ := Some r |},
   WritePacket (CommandWithReply_MakeCommandPacket r) true).

Definition SetTime (m : Manager) (posix_time : Z) : Manager * list event :=
  let viva_time := VLGetVivaTimeFromPosix posix_time in
  let c := CSetTime (SetTimeCommand_new viva_time SetTime_on_finish) in
  ({| command_ := Some c; response_ := None |},
   WritePacket (Command_MakeCommandPacket c) true).

End ManagerOperations.

(** ** Auxiliary definitions for the statements *)

(** A packet as the device sends it: [VLMakePacket] with the peers swapped. *)
Definition device_packet (seqno cmd_id : Z) (payload0 : list Z) : VLPacket :=
  let payload_len := length payload0 in
  let packet :=
    {| pkt_crc := 0;
       payload_length := Z.of_nat payload_len mod 256;
       sender := kPeerViiiiva;
       receiver := kPeerHost;
       cmd := VLWriteLittleInt16 cmd_id;
       payload := memcpy (replicate 14 0) payload0 payload_len |} in
  {| pkt_crc :=
       Z.lor (Z.shiftl seqno 5 mod 256)
         (Z.land 31 (crc (firstn (payload_len + 5) (skipn 1 (packet_bytes packet)))));
     payload_length := payload_length packet;
     sender := sender packet;
     receiver := receiver packet;
     cmd := cmd packet;
     payload := payload packet |}.

(** A packet whose first byte carries sequence number [s] and nothing else. *)
Definition seqno_packet (s : Z) : VLPacket :=
  {| pkt_crc := Z.shiftl s 5; payload_length := 0; sender := 0;
     receiver := 0; cmd := [0; 0]; payload := replicate 14 0 |}.

(** The length checks of [VLReadPacket]. *)
Definition header_ok (src : list Z) : bool :=
  negb ((Z.of_nat (length src) >? kPacketMaxLength) ||
        (Z.of_nat (length src) <? kPacketMinLength) ||
        negb (Z.of_nat (length src) =? kPacketOffsetPayload + byte_at src 1)).

(** The CRC loop started from an arbitrary register value. *)
Definition crc_from (c : Z) (data : list Z) : Z :=
  fold_left (fun crc p => nth (Z.to_nat (Z.lxor crc p)) lookup 0) data c.

(** Whether the CRC check of [VLReadPacket] notices that byte [i] (not the
    length byte) of the accepted packet [src] was replaced by [v]. *)
Definition crc_detects (src : list Z) (i : nat) (v : Z) : bool :=
  match i with
  | O => negb (Z.land 31 v =? Z.land 31 (byte_at src 0))
  | _ => negb (Z.land 31 (crc (Z.lxor (byte_at src i) v
                                 :: replicate (length src - S i) 0)) =? 0)
  end.

(** A directory blob starts with a header that [VLReadDirectoryHeader]
    accepts. *)
Definition valid_header (h : list Z) : Prop :=
  length h = 16%nat /\ byte_at h 0 = 1 /\ byte_at h 1 = 16 /\ byte_at h 2 = 0.

Definition entry_of_bytes (b : list Z) : DirectoryEntry :=
  mkDirectoryEntry (bytes_entry b).

(** A directory header and two entries that both carry index 1. *)
Definition dir_header : list Z := [1; 16; 0; 0; 0; 0; 0; 0; 0; 0; 0; 16; 0; 0; 0; 0].
Definition dir_entry_a : list Z := [1; 0; 128; 4; 1; 0; 0; 96; 100; 0; 0; 0; 0; 0; 0; 16].
Definition dir_entry_b : list Z := [1; 0; 128; 4; 1; 0; 0; 96; 200; 0; 0; 0; 0; 0; 0; 16].

(** A directory with two entries, index 2 before index 1. *)
Definition directory_blob : list Z :=
  dir_header
  ++ [2; 0; 128; 4; 2; 0; 0; 96; 200; 0; 0; 0; 0; 0; 0; 16]
  ++ [1; 0; 128; 1; 1; 0; 0; 64; 100; 0; 0; 0; 0; 0; 0; 16].

(** The reply-acknowledgement that ends a command with a reply. *)
Definition reply_ack (delegate_WriteValue : list Z -> Z) (m : Manager)
  : list event :=
  match response_ m with
  | Some r =>
      if ShouldAckReply r
      then WritePacket delegate_WriteValue (MakeResponseAckPacket r) false
      else []
  | None => []
  end.

(** A delegate whose [WriteValue] always succeeds. *)
Definition ok_delegate (value : list Z) : Z := 0.

(** An allocator that grants a request of less than 4 GiB and refuses a
    larger one. *)
Definition memory_below_4GiB (n : Z) : bool := n <? 2 ^ 32.

(** The call returns, and what it returns satisfies [P]. *)
Definition returns {A : Type} (r : option A) (P : A -> Prop) : Prop :=
  match r with
  | Some a => P a
  | None => False
  end.

(** The manager that a call of [NotifyValue] leaves: the new state when the
    call returns, the old one when it throws. *)
Definition state_after (m : Manager) (r : option (Manager * list event))
  : Manager :=
  match r with
  | Some (m', _) => m'
  | None => m
  end.

(** Values that the device sends: acknowledgements and replies. *)
Definition erase_ack : list Z := VLWritePacket (device_packet 7 0x840b []).
Definition erase_reply : list Z := VLWritePacket (device_packet 7 0x050b [0]).
Definition download_ack : list Z :=
  VLWritePacket
    (device_packet 7 0x810b
       (VLWriteLittleInt16 3 ++ VLWriteLittleInt32 0 ++ VLWriteLittleInt32 4)).
Definition download_reply : list Z :=
  VLWritePacket (device_packet 7 0x030b [1; 2; 3; 4]).
Definition set_time_ack : list Z := VLWritePacket (device_packet 7 0x8108 []).

(** The manager after [erase_file(5)] and the device's acknowledgement. *)
Definition erase_acked : Manager :=
  let m := fst (EraseFile ok_delegate Manager_new 5) in
  state_after m (NotifyValue ok_delegate VLPacket_zero memory_below_4GiB m erase_ack).

(** The manager after [download_file(3)] and the device's acknowledgement. *)
Definition download_acked : Manager :=
  let m := fst (DownloadFile ok_delegate Manager_new 3) in
  state_after m
    (NotifyValue ok_delegate VLPacket_zero memory_below_4GiB m download_ack).

(** The manager after [set_time(1600000000)]. *)
Definition set_time_issued : Manager :=
  fst (SetTime ok_delegate Manager_new 1600000000).

(** ** Further auxiliary definitions *)

(** The two slots are never both occupied. *)
Definition one_slot (m : Manager) : Prop :=
  command_ m = None \/ response_ m = None.

(** The reader after reading [directory_blob]. *)
Definition directory_reader : Reader :=
  match Read (Reader_new directory_blob) with
  | Some (_, r) => r
  | None => Reader_new []
  end.

(** Every key of the map is the index of the entry stored under it. *)
Definition keyed_by_index (m : gmap Z DirectoryEntry) : Prop :=
  forall k e, m !! k = Some e -> DirectoryEntry_index e = k.


(** The acknowledgement of a directory download that announces 0xffffffff
    records. *)
Definition directory_ack_max : list Z :=
  VLWritePacket
    (device_packet 7 0x810b
       (VLWriteLittleInt16 0 ++ VLWriteLittleInt32 0
        ++ VLWriteLittleInt32 0xffffffff)).
(** * Properties *)

(** ** CRC-8 *)

(** The check value of the CRC documented in [crc.hpp]. *)
Example crc_check_value :
  crc [49; 50; 51; 52; 53; 54; 55; 56; 57] = 244.
Proof. vm_compute. reflexivity. Qed.

(** ** Burst tracker *)

Section BurstProperties.

Implicit Types (b : Burst) (p : VLPacket).

(** The transition only looks at the packet's sequence number. *)
Lemma Burst_ReadPacket_seqno b p p' :
  VLPacketSeqno p = VLPacketSeqno p' ->
  Burst_ReadPacket b p = Burst_ReadPacket b p'.
Proof. unfold Burst_ReadPacket. intros ->. reflexivity. Qed.

Lemma Burst_ReadPacket_expected k p :
  1 <= k <= 6 -> VLPacketSeqno p = k ->
  Burst_ReadPacket (mkBurst (mkBurstState k)) p
  = mkBurst (mkBurstState (k mod 6 + 1)).
Proof.
  intros Hk Hp. unfold Burst_ReadPacket. rewrite Hp. cbn [burst_state_ seqno].
  assert (Hc : k = 1 \/ k = 2 \/ k = 3 \/ k = 4 \/ k = 5 \/ k = 6) by lia.
  destruct Hc as [-> | [-> | [-> | [-> | [-> | ->]]]]]; reflexivity.
Qed.

(** A run of the tracker is determined by the sequence numbers alone. *)
Lemma Burst_fold_seqno (ps : list VLPacket) b :
  fold_left Burst_ReadPacket ps b
  = fold_left (fun b s => Burst_ReadPacket b (seqno_packet s))
      (map VLPacketSeqno ps) b.
Proof.
  revert b. induction ps as [|p ps IH]; intros b; [reflexivity|].
  cbn [map fold_left]. rewrite IH. f_equal.
  apply Burst_ReadPacket_seqno. unfold seqno_packet, VLPacketSeqno.
  cbn [pkt_crc]. rewrite Z.shiftr_shiftl_l by lia. rewrite Z.sub_diag.
  now rewrite Z.shiftl_0_r.
Qed.

End BurstProperties.

(** C1 fails as stated: in the empty state the tracker expects sequence
    number 0, so a first packet carrying 1 is out of sequence. *)
Lemma burst_empty_rejects_1 :
  VLPacketSeqno (device_packet 1 0x030b [0]) = 1 /\
  IsEmpty Burst_new = true /\
  IsValid (Burst_ReadPacket Burst_new (device_packet 1 0x030b [0])) = false.
Proof. repeat split; vm_compute; reflexivity. Qed.

(** C1 (amended): from the empty state the sequence
    0,1,2,3,4,5,6,1,2,3,4,5,6,7 is accepted at every step and ends the
    burst; from the empty state a packet with sequence number 0 is
    accepted and the next expected value becomes 1, while a packet with
    sequence number 1 is rejected; after accepting the expected k in 1..6
    the next expected value is (k mod 6)+1. *)
Theorem burst_accepts_ring (ps : list VLPacket) (p0 p1 pk : VLPacket) (k : Z) :
  map VLPacketSeqno ps = [0; 1; 2; 3; 4; 5; 6; 1; 2; 3; 4; 5; 6; 7] ->
  VLPacketSeqno p0 = 0 ->
  VLPacketSeqno p1 = 1 ->
  1 <= k <= 6 -> VLPacketSeqno pk = k ->
  (forall n : nat,
      IsValid (fold_left Burst_ReadPacket (firstn n ps) Burst_new) = true) /\
  HasEnded (fold_left Burst_ReadPacket ps Burst_new) = true /\
  Burst_ReadPacket Burst_new p0 = mkBurst (mkBurstState 1) /\
  IsValid (Burst_ReadPacket Burst_new p1) = false /\
  Burst_ReadPacket (mkBurst (mkBurstState k)) pk
  = mkBurst (mkBurstState (k mod 6 + 1)).
Proof.
  intros Hps Hp0 Hp1 Hk Hpk.
  repeat split.
  - intros n. rewrite Burst_fold_seqno, <- firstn_map, Hps.
    do 15 (try destruct n as [|n]); vm_compute; reflexivity.
  - rewrite Burst_fold_seqno, Hps. vm_compute. reflexivity.
  - unfold Burst_ReadPacket. rewrite Hp0. reflexivity.
  - unfold Burst_ReadPacket. rewrite Hp1. reflexivity.
  - apply Burst_ReadPacket_expected; assumption.
Qed.

Lemma burst_accepts_ring_witness :
  let ps := map (fun s => device_packet s 0x030b [0])
                [0; 1; 2; 3; 4; 5; 6; 1; 2; 3; 4; 5; 6; 7] in
  (forall n : nat,
      IsValid (fold_left Burst_ReadPacket (firstn n ps) Burst_new) = true) /\
  HasEnded (fold_left Burst_ReadPacket ps Burst_new) = true /\
  Burst_ReadPacket Burst_new (device_packet 0 0x030b [0])
  = mkBurst (mkBurstState 1) /\
  IsValid (Burst_ReadPacket Burst_new (device_packet 1 0x030b [0])) = false /\
  Burst_ReadPacket (mkBurst (mkBurstState 6)) (device_packet 6 0x030b [0])
  = mkBurst (mkBurstState (6 mod 6 + 1)).
Proof.
  intros ps.
  apply (burst_accepts_ring ps (device_packet 0 0x030b [0])
           (device_packet 1 0x030b [0]) (device_packet 6 0x030b [0]) 6).
  - vm_compute; reflexivity.
  - vm_compute; reflexivity.
  - vm_compute; reflexivity.
  - lia.
  - vm_compute; reflexivity.
Defined.

(** C10: the invalid state is not absorbing.  From the sentinel state 8 a
    packet with sequence number 7 yields the ended state 7, which is valid
    and ended; every sequence number in 0..6 yields the invalid state. *)
Theorem burst_invalid_not_absorbing (p : VLPacket) :
  let invalid := mkBurst (mkBurstState kSeqnoInvalid) in
  (VLPacketSeqno p = 7 ->
   Burst_ReadPacket invalid p = mkBurst (mkBurstState 7) /\
   IsValid (Burst_ReadPacket invalid p) = true /\
   HasEnded (Burst_ReadPacket invalid p) = true) /\
  (0 <= VLPacketSeqno p <= 6 ->
   Burst_ReadPacket invalid p = invalid /\
   IsValid (Burst_ReadPacket invalid p) = false).
Proof.
  intros invalid. subst invalid. unfold Burst_ReadPacket.
  cbn [burst_state_ seqno]. split.
  - intros ->. repeat split; reflexivity.
  - intros Hs. unfold VLDoesSeqnoMatch, kSeqnoInvalid, kVLSeqnoEnd.
    destruct (Z.eqb_spec (VLPacketSeqno p) 8); [lia|].
    destruct (Z.eqb_spec (VLPacketSeqno p) 7); [lia|].
    split; reflexivity.
Qed.

(** ** Time codec *)

(** C8 fails as stated: the device time is truncated to 32 bits, so a
    POSIX time 2^32 seconds past the device epoch comes back as the epoch. *)
Lemma time_roundtrip_fails_late :
  let t := 631065600 + 2 ^ 32 in
  t >= 631065600 /\ is_time_t t /\
  VLGetVivaTimeFromPosix t = 0 /\
  VLGetPosixTimeFromViva (VLGetVivaTimeFromPosix t) = 631065600 /\
  VLGetPosixTimeFromViva (VLGetVivaTimeFromPosix t) <> t.
Proof.
  cbv zeta. unfold is_time_t. repeat split; try lia; vm_compute; congruence.
Qed.

(** C8 (amended): for every POSIX time t with
    631065600 <= t < 631065600 + 2^32, [to_posix (to_device t) = t]. *)
Theorem time_roundtrip (t : Z) :
  kAntEpoch <= t < kAntEpoch + 2 ^ 32 ->
  VLGetPosixTimeFromViva (VLGetVivaTimeFromPosix t) = t.
Proof.
  unfold VLGetPosixTimeFromViva, VLGetVivaTimeFromPosix, to_time_t, kAntEpoch.
  intros Ht.
  rewrite (Z.mod_small (t - 631065600)) by lia.
  rewrite (Z.mod_small (t - 631065600 + 631065600)) by lia.
  rewrite Z.mod_small by lia. lia.
Qed.

Lemma time_roundtrip_witness :
  VLGetPosixTimeFromViva (VLGetVivaTimeFromPosix 1600000000) = 1600000000.
Proof. apply time_roundtrip. unfold kAntEpoch. lia. Defined.

(** ** Framing *)

Section Framing.

(** Checking a boolean predicate on every number below [n]. *)
Lemma Z_below_forallb (f : Z -> bool) (n : nat) :
  forallb f (map Z.of_nat (seq 0 n)) = true ->
  forall z, 0 <= z < Z.of_nat n -> f z = true.
Proof.
  intros H z Hz. rewrite forallb_forall in H. apply H.
  apply in_map_iff. exists (Z.to_nat z). split; [lia|].
  apply in_seq. lia.
Qed.

Lemma lookup_is_byte (i : nat) : is_byte (nth i lookup 0).
Proof.
  assert (H : forallb is_byteb lookup = true) by (vm_compute; reflexivity).
  rewrite forallb_forall in H.
  destruct (Nat.lt_ge_cases i (length lookup)) as [Hi | Hi].
  - specialize (H _ (nth_In lookup 0 Hi)). unfold is_byteb in H.
    unfold is_byte. lia.
  - rewrite nth_overflow by exact Hi. unfold is_byte. lia.
Qed.

Lemma crc_fold_is_byte (data : list Z) (c : Z) :
  is_byte c ->
  is_byte (fold_left (fun crc p => nth (Z.to_nat (Z.lxor crc p)) lookup 0)
             data c).
Proof.
  revert c. induction data as [|p data IH]; intros c Hc.
  - exact Hc.
  - cbn [fold_left]. apply IH. apply lookup_is_byte.
Qed.

Lemma crc_is_byte (data : list Z) : is_byte (crc data).
Proof. apply crc_fold_is_byte. unfold is_byte. lia. Qed.

(** Packing a 3-bit sequence number and a masked CRC into one byte. *)
Lemma seqno_crc_byte (s c : Z) :
  0 <= s <= 7 -> is_byte c ->
  let b := Z.lor (Z.shiftl s 5 mod 256) (Z.land 31 c) in
  is_byte b /\ Z.land 31 b = Z.land 31 c /\ Z.shiftr b 5 = s.
Proof.
  intros Hs Hc. cbv zeta.
  pose (f := fun s c =>
    let b := Z.lor (Z.shiftl s 5 mod 256) (Z.land 31 c) in
    is_byteb b && (Z.land 31 b =? Z.land 31 c) && (Z.shiftr b 5 =? s)).
  assert (H : f s c = true).
  { assert (Hall : forallb (f s) (map Z.of_nat (seq 0 256)) = true).
    { apply (Z_below_forallb
               (fun s => forallb (f s) (map Z.of_nat (seq 0 256))) 8);
        [vm_compute; reflexivity | lia]. }
    unfold is_byte in Hc.
    apply (Z_below_forallb (f s) 256 Hall). lia. }
  subst f. cbv beta zeta in H. unfold is_byteb in H. unfold is_byte. lia.
Qed.

Lemma read_write_int16 (x : Z) :
  0 <= x < 65536 -> OSReadLittleInt16 (VLWriteLittleInt16 x) 0 = x.
Proof.
  intros Hx. unfold OSReadLittleInt16, VLWriteLittleInt16, byte_at.
  cbn [nth Nat.add].
  rewrite <- (Z.mod_small x (2 ^ 16)) at 3 by lia.
  change 256 with (2 ^ 8).
  apply Z.bits_inj'. intros n Hn.
  destruct (Z.lt_ge_cases n 16) as [Hlt | Hge].
  - rewrite !Z.mod_pow2_bits_low by lia. rewrite Z.lor_spec.
    destruct (Z.lt_ge_cases n 8) as [Hlo | Hhi].
    + rewrite Z.mod_pow2_bits_low by lia.
      rewrite Z.shiftl_spec_low by lia. apply orb_false_r.
    + rewrite Z.mod_pow2_bits_high by lia.
      rewrite Z.shiftl_spec by lia.
      rewrite Z.mod_pow2_bits_low by lia.
      rewrite Z.shiftr_spec by lia. cbn [orb]. f_equal. lia.
  - rewrite !Z.mod_pow2_bits_high by lia. reflexivity.
Qed.

Lemma packet_bytes_length (p : VLPacket) : length (packet_bytes p) = 20%nat.
Proof.
  unfold packet_bytes. cbn [length].
  rewrite length_app, !length_firstn, !length_app, length_replicate.
  cbn [length]. lia.
Qed.

Lemma packet_bytes_bytes_packet (b : list Z) :
  length b = 20%nat -> packet_bytes (bytes_packet b) = b.
Proof.
  intros H.
  do 20 (destruct b as [|? b]; [discriminate H|]).
  destruct b; [reflexivity | discriminate H].
Qed.

Lemma VLMakePacket_bytes (seqno cmd_id : Z) (payload0 : list Z) :
  (length payload0 <= 14)%nat ->
  packet_bytes (VLMakePacket seqno cmd_id payload0)
  = pkt_crc (VLMakePacket seqno cmd_id payload0)
      :: Z.of_nat (length payload0) :: kPeerHost :: kPeerViiiiva
      :: VLWriteLittleInt16 cmd_id
      ++ payload0 ++ replicate (14 - length payload0) 0.
Proof.
  intros Hlen. unfold packet_bytes at 1.
  cbn [payload_length sender receiver cmd payload VLMakePacket].
  rewrite Z.mod_small by lia.
  unfold memcpy. rewrite firstn_all, drop_replicate.
  do 4 f_equal. f_equal.
  apply take_app_length'. rewrite length_app, length_replicate. lia.
Qed.

Lemma VLWritePacket_VLMakePacket (seqno cmd_id : Z) (payload0 : list Z) :
  (length payload0 <= 14)%nat ->
  VLWritePacket (VLMakePacket seqno cmd_id payload0)
  = pkt_crc (VLMakePacket seqno cmd_id payload0)
      :: Z.of_nat (length payload0) :: kPeerHost :: kPeerViiiiva
      :: VLWriteLittleInt16 cmd_id ++ payload0.
Proof.
  intros Hlen. unfold VLWritePacket. rewrite VLMakePacket_bytes by exact Hlen.
  cbn [payload_length VLMakePacket]. rewrite Z.mod_small by lia.
  unfold kPacketOffsetPayload.
  replace (Z.to_nat (6 + Z.of_nat (length payload0)))
    with (6 + length payload0)%nat by lia.
  cbn [Nat.add take VLWriteLittleInt16 app]. do 6 f_equal.
  apply take_app_length.
Qed.

Lemma VLMakePacket_crc (seqno cmd_id : Z) (payload0 : list Z) :
  (length payload0 <= 14)%nat ->
  pkt_crc (VLMakePacket seqno cmd_id payload0)
  = Z.lor (Z.shiftl seqno 5 mod 256)
      (Z.land 31 (crc (Z.of_nat (length payload0) :: kPeerHost :: kPeerViiiiva
                         :: VLWriteLittleInt16 cmd_id ++ payload0))).
Proof.
  intros Hlen. cbn [pkt_crc VLMakePacket]. do 3 f_equal.
  unfold packet_bytes.
  cbn [pkt_crc payload_length sender receiver cmd payload skipn].
  rewrite Z.mod_small by lia.
  unfold kPacketOffsetPayload, kPacketOffsetLength.
  replace (length payload0 + Z.to_nat 6 - Z.to_nat 1)%nat
    with (5 + length payload0)%nat by lia.
  cbn [Nat.add take VLWriteLittleInt16 app]. do 5 f_equal.
  unfold memcpy. rewrite firstn_all.
  rewrite take_take, Nat.min_l by exact Hlen.
  rewrite <- app_assoc. apply take_app_length.
Qed.

Lemma VLReadPacket_unfold (dst : VLPacket) (src : list Z) :
  VLReadPacket dst src
  = if negb (header_ok src) then (-1, dst)
    else
      let packet' := bytes_packet (src ++ drop (length src) (packet_bytes dst)) in
      if Z.land 31 (byte_at src 0) =? Z.land 31 (crc (drop 1 src))
      then (0, packet') else (-2, packet').
Proof.
  unfold VLReadPacket, header_ok. rewrite negb_involutive.
  destruct (_ || _ || _) eqn:Hchk; [reflexivity|].
  cbv zeta. unfold memcpy. rewrite firstn_all.
  unfold kPacketMaxLength, kPacketMinLength in Hchk.
  assert (Hlen : (6 <= length src <= 20)%nat) by lia.
  rewrite packet_bytes_bytes_packet
    by (rewrite length_app, length_drop, packet_bytes_length; lia).
  assert (Hc : pkt_crc (bytes_packet (src ++ drop (length src) (packet_bytes dst)))
               = byte_at src 0).
  { cbn [pkt_crc bytes_packet]. unfold byte_at. apply app_nth1. lia. }
  rewrite Hc.
  assert (Ht : take (Z.to_nat (Z.of_nat (length src) - kPacketOffsetLength))
                 (drop 1 (src ++ drop (length src) (packet_bytes dst)))
               = drop 1 src).
  { rewrite drop_app_le by lia. apply take_app_length'.
    rewrite length_drop. unfold kPacketOffsetLength. lia. }
  rewrite Ht.
  destruct (Z.land 31 (byte_at src 0) =? _); reflexivity.
Qed.

(** C5: serialising [make_packet(seqno, cmd, payload)] to its 6+len wire
    bytes and decoding them with [read_packet] succeeds and gives back the
    sequence number (also as [bytes[0] >> 5]), the payload length, sender
    3, receiver 1, the command id and the payload bytes. *)
Theorem packet_roundtrip (dst : VLPacket) (seqno cmd_id : Z) (payload0 : list Z) :
  0 <= seqno <= 7 -> 0 <= cmd_id < 65536 ->
  (length payload0 <= 14)%nat -> Forall is_byte payload0 ->
  let bytes := VLWritePacket (VLMakePacket seqno cmd_id payload0) in
  length bytes = (6 + length payload0)%nat /\
  Z.shiftr (byte_at bytes 0) 5 = seqno /\
  exists packet,
    VLReadPacket dst bytes = (0, packet) /\
    VLPacketSeqno packet = seqno /\
    payload_length packet = Z.of_nat (length payload0) /\
    sender packet = 3 /\
    receiver packet = 1 /\
    OSReadLittleInt16 (cmd packet) 0 = cmd_id /\
    take (Z.to_nat (payload_length packet)) (payload packet) = payload0.
Proof.
  intros Hs Hcmd Hlen Hbytes bytes. subst bytes.
  rewrite VLWritePacket_VLMakePacket by exact Hlen.
  rewrite VLMakePacket_crc by exact Hlen.
  set (tail := Z.of_nat (length payload0) :: kPeerHost :: kPeerViiiiva
                 :: VLWriteLittleInt16 cmd_id ++ payload0).
  destruct (seqno_crc_byte seqno (crc tail) Hs (crc_is_byte tail))
    as (Hb & Hland & Hshr).
  set (c := Z.lor (Z.shiftl seqno 5 mod 256) (Z.land 31 (crc tail))) in *.
  split; [unfold tail; cbn [length VLWriteLittleInt16 app]; lia|].
  split; [exact Hshr|].
  rewrite VLReadPacket_unfold.
  assert (Hok : header_ok (c :: tail) = true).
  { unfold header_ok, tail, byte_at, kPacketMaxLength, kPacketMinLength,
      kPacketOffsetPayload.
    cbn [length nth VLWriteLittleInt16 app]. lia. }
  rewrite Hok. cbn [negb]. cbv zeta.
  change (byte_at (c :: tail) 0) with c.
  change (drop 1 (c :: tail)) with tail.
  rewrite Hland, Z.eqb_refl.
  eexists. split; [reflexivity|].
  unfold tail. cbn [VLWriteLittleInt16 app].
  unfold bytes_packet, VLPacketSeqno, byte_at.
  cbn [pkt_crc payload_length sender receiver cmd payload nth drop take app].
  repeat split; try assumption; try reflexivity.
  - apply (read_write_int16 cmd_id Hcmd).
  - rewrite Nat2Z.id, take_take, Nat.min_l by exact Hlen.
    apply take_app_length.
Qed.

Lemma lxor_is_byte a b : is_byte a -> is_byte b -> is_byte (Z.lxor a b).
Proof.
  unfold is_byte. intros Ha Hb.
  assert (H : forallb (fun a => forallb (fun b => is_byteb (Z.lxor a b))
                                  (map Z.of_nat (seq 0 256)))
                (map Z.of_nat (seq 0 256)) = true) by (vm_compute; reflexivity).
  pose proof (Z_below_forallb _ 256 H a ltac:(lia)) as H1. cbv beta in H1.
  pose proof (Z_below_forallb _ 256 H1 b ltac:(lia)) as H2. cbv beta in H2.
  unfold is_byteb in H2. lia.
Qed.

Lemma lookup_lxor a b :
  is_byte a -> is_byte b ->
  nth (Z.to_nat (Z.lxor a b)) lookup 0
  = Z.lxor (nth (Z.to_nat a) lookup 0) (nth (Z.to_nat b) lookup 0).
Proof.
  unfold is_byte. intros Ha Hb.
  pose (f := fun a b =>
    nth (Z.to_nat (Z.lxor a b)) lookup 0
    =? Z.lxor (nth (Z.to_nat a) lookup 0) (nth (Z.to_nat b) lookup 0)).
  assert (H : forallb (fun a => forallb (f a) (map Z.of_nat (seq 0 256)))
                (map Z.of_nat (seq 0 256)) = true) by (vm_compute; reflexivity).
  pose proof (Z_below_forallb _ 256 H a ltac:(lia)) as H1. cbv beta in H1.
  pose proof (Z_below_forallb _ 256 H1 b ltac:(lia)) as H2.
  subst f. cbv beta in H2. lia.
Qed.

Lemma lxor_cancel_r a b p : Z.lxor (Z.lxor a p) (Z.lxor b p) = Z.lxor a b.
Proof.
  apply Z.bits_inj'. intros n _. rewrite !Z.lxor_spec.
  destruct (Z.testbit a n), (Z.testbit b n), (Z.testbit p n); reflexivity.
Qed.

Lemma lxor_cancel_l a b p : Z.lxor (Z.lxor p a) (Z.lxor p b) = Z.lxor a b.
Proof. rewrite !(Z.lxor_comm p). apply lxor_cancel_r. Qed.

Lemma crc_crc_from data : crc data = crc_from 0 data.
Proof. reflexivity. Qed.

Lemma crc_from_is_byte c data : is_byte c -> is_byte (crc_from c data).
Proof. apply crc_fold_is_byte. Qed.

Lemma crc_from_app c xs ys :
  crc_from c (xs ++ ys) = crc_from (crc_from c xs) ys.
Proof. unfold crc_from. apply fold_left_app. Qed.

(** Two runs over the same bytes differ by the run of the difference of
    their starting values over zero bytes. *)
Lemma crc_from_lxor (post : list Z) (c1 c2 : Z) :
  is_byte c1 -> is_byte c2 -> Forall is_byte post ->
  Z.lxor (crc_from c1 post) (crc_from c2 post)
  = crc_from (Z.lxor c1 c2) (replicate (length post) 0).
Proof.
  intros H1 H2 Hpost. revert c1 c2 H1 H2.
  induction Hpost as [|p post Hp Hpost IH]; intros c1 c2 H1 H2.
  - reflexivity.
  - cbn [length replicate]. unfold crc_from at 1 2 3. cbn [fold_left].
    fold (crc_from (nth (Z.to_nat (Z.lxor c1 p)) lookup 0) post).
    fold (crc_from (nth (Z.to_nat (Z.lxor c2 p)) lookup 0) post).
    fold (crc_from (nth (Z.to_nat (Z.lxor (Z.lxor c1 c2) 0)) lookup 0)
            (replicate (length post) 0)).
    rewrite IH by apply lookup_is_byte.
    f_equal. rewrite Z.lxor_0_r.
    rewrite <- lookup_lxor by (apply lxor_is_byte; assumption).
    now rewrite lxor_cancel_r.
Qed.

(** Changing one byte [x] of the data into [v] changes the CRC by the CRC
    of the difference followed by as many zero bytes as follow [x]. *)
Lemma crc_single_byte (pre post : list Z) (x v : Z) :
  Forall is_byte pre -> Forall is_byte post -> is_byte x -> is_byte v ->
  Z.lxor (crc (pre ++ x :: post)) (crc (pre ++ v :: post))
  = crc (Z.lxor x v :: replicate (length post) 0).
Proof.
  intros Hpre Hpost Hx Hv.
  repeat match goal with
         | |- context [crc ?d] => change (crc d) with (crc_from 0 d)
         end.
  rewrite !crc_from_app.
  set (c := crc_from 0 pre).
  assert (Hc : is_byte c) by (apply crc_from_is_byte; unfold is_byte; lia).
  change (crc_from c (x :: post))
    with (crc_from (nth (Z.to_nat (Z.lxor c x)) lookup 0) post).
  change (crc_from c (v :: post))
    with (crc_from (nth (Z.to_nat (Z.lxor c v)) lookup 0) post).
  change (crc_from 0 (Z.lxor x v :: replicate (length post) 0))
    with (crc_from (nth (Z.to_nat (Z.lxor 0 (Z.lxor x v))) lookup 0)
            (replicate (length post) 0)).
  rewrite crc_from_lxor by (try apply lookup_is_byte; assumption).
  f_equal.
  rewrite <- lookup_lxor by (apply lxor_is_byte; assumption).
  now rewrite lxor_cancel_l, Z.lxor_0_l.
Qed.

Lemma land_eqb_lxor (m a b : Z) :
  (Z.land m a =? Z.land m b) = (Z.land m (Z.lxor a b) =? 0).
Proof.
  assert (Hd : Z.land m (Z.lxor a b) = Z.lxor (Z.land m a) (Z.land m b)).
  { apply Z.bits_inj'. intros n _.
    rewrite !Z.lxor_spec, !Z.land_spec, Z.lxor_spec.
    destruct (Z.testbit m n), (Z.testbit a n), (Z.testbit b n); reflexivity. }
  rewrite Hd.
  destruct (Z.eqb_spec (Z.land m a) (Z.land m b)) as [-> | Hne].
  - rewrite Z.lxor_nilpotent. reflexivity.
  - symmetry. apply Z.eqb_neq. rewrite Z.lxor_eq_0_iff. exact Hne.
Qed.

Lemma VLReadPacket_accepts (dst : VLPacket) (src : list Z) :
  fst (VLReadPacket dst src) = 0 <->
  header_ok src = true /\
  Z.land 31 (byte_at src 0) = Z.land 31 (crc (drop 1 src)).
Proof.
  rewrite VLReadPacket_unfold. destruct (header_ok src); cbn [negb fst].
  - cbv zeta. destruct (Z.eqb_spec (Z.land 31 (byte_at src 0))
                          (Z.land 31 (crc (drop 1 src)))); cbn [fst].
    + tauto.
    + split; [discriminate | tauto].
  - split; [discriminate | intros [? _]; discriminate].
Qed.

Lemma byte_at_insert_eq (src : list Z) (i : nat) (v : Z) :
  (i < length src)%nat -> byte_at (<[i:=v]> src) i = v.
Proof.
  intros Hi. unfold byte_at. rewrite nth_lookup.
  now rewrite list_lookup_insert_eq by exact Hi.
Qed.

Lemma byte_at_insert_ne (src : list Z) (i j : nat) (v : Z) :
  i <> j -> byte_at (<[i:=v]> src) j = byte_at src j.
Proof.
  intros Hi. unfold byte_at. rewrite !nth_lookup.
  now rewrite list_lookup_insert_ne by exact Hi.
Qed.

(** C6 (amended): for a packet that [read_packet] accepts, a corruption of
    exactly one byte is answered as follows.  Byte 1 (the payload length):
    the length check fails.  Byte 0: the CRC check fails exactly when the
    low five bits change.  Byte i >= 2, from x to v: the CRC check fails
    exactly when the low five bits of the CRC-8 of [x xor v] followed by
    the zero bytes for the rest of the packet are not all zero.  Otherwise
    the corrupted packet is accepted. *)
Theorem corrupt_one_byte (dst : VLPacket) (src : list Z) (i : nat) (v : Z) :
  Forall is_byte src -> fst (VLReadPacket dst src) = 0 ->
  (i < length src)%nat -> is_byte v -> v <> byte_at src i ->
  fst (VLReadPacket dst (<[i:=v]> src))
  = if (i =? 1)%nat then -1 else if crc_detects src i v then -2 else 0.
Proof.
  intros Hsrc Hok Hi Hv Hne.
  apply VLReadPacket_accepts in Hok. destruct Hok as [Hhdr Hcrc].
  rewrite VLReadPacket_unfold.
  unfold header_ok in *. rewrite length_insert.
  destruct (Nat.eqb_spec i 1) as [-> | Hi1].
  - rewrite byte_at_insert_eq by exact Hi.
    replace (Z.of_nat (length src) =? kPacketOffsetPayload + v) with false by lia.
    rewrite !orb_true_r. reflexivity.
  - rewrite byte_at_insert_ne by exact Hi1. rewrite Hhdr. cbn [negb]. cbv zeta.
    destruct i as [|i].
    + rewrite byte_at_insert_eq by exact Hi.
      rewrite drop_insert_lt by lia. rewrite <- Hcrc. cbn [crc_detects].
      destruct (Z.land 31 v =? _); reflexivity.
    + rewrite byte_at_insert_ne by lia. rewrite Hcrc.
      rewrite drop_insert_ge by lia. cbn [crc_detects].
      set (tail := drop 1 src). set (j := (S i - 1)%nat).
      assert (Hj : (j < length tail)%nat)
        by (unfold tail, j; rewrite length_drop; lia).
      assert (Hx : tail !! j = Some (byte_at src (S i))).
      { unfold tail, j, byte_at. rewrite lookup_drop, nth_lookup.
        replace (1 + (S i - 1))%nat with (S i) by lia.
        destruct (lookup_lt_is_Some_2 src (S i) Hi) as [x ->]. reflexivity. }
      rewrite insert_take_drop by exact Hj.
      rewrite <- (take_drop_middle tail j _ Hx) at 1.
      assert (Htail : Forall is_byte tail) by (apply Forall_drop; exact Hsrc).
      rewrite land_eqb_lxor, crc_single_byte;
        [ | apply Forall_take; exact Htail | apply Forall_drop; exact Htail
          | | exact Hv ].
      * rewrite length_drop. unfold tail, j. rewrite length_drop.
        replace (length src - 1 - S (S i - 1))%nat
          with (length src - S (S i))%nat by lia.
        destruct (Z.land 31 _ =? 0); reflexivity.
      * unfold tail in Hx. rewrite lookup_drop in Hx.
        exact (proj1 (Forall_lookup _ _) Hsrc _ _ Hx).
Qed.

End Framing.

Lemma packet_roundtrip_witness :
  let bytes := VLWritePacket (VLMakePacket 7 0x040b [5; 0]) in
  length bytes = (6 + 2)%nat /\
  Z.shiftr (byte_at bytes 0) 5 = 7 /\
  exists packet,
    VLReadPacket VLPacket_zero bytes = (0, packet) /\
    VLPacketSeqno packet = 7 /\
    payload_length packet = 2 /\
    sender packet = 3 /\
    receiver packet = 1 /\
    OSReadLittleInt16 (cmd packet) 0 = 0x040b /\
    take (Z.to_nat (payload_length packet)) (payload packet) = [5; 0].
Proof.
  apply (packet_roundtrip VLPacket_zero 7 0x040b [5; 0]).
  - lia.
  - lia.
  - simpl. lia.
  - repeat constructor; unfold is_byte; lia.
Defined.

(** C6 fails as stated: the sequence-number bits of byte 0 are not covered
    by the CRC, and only five bits of the CRC-8 are kept, so some changes
    of a later byte go unnoticed as well. *)
Lemma corruption_undetected :
  let src := [60; 3; 1; 3; 11; 3; 1; 2; 3] in
  src = VLWritePacket (device_packet 1 0x030b [1; 2; 3]) /\
  fst (VLReadPacket VLPacket_zero src) = 0 /\
  fst (VLReadPacket VLPacket_zero (<[0%nat := 124]> src)) = 0 /\
  fst (VLReadPacket VLPacket_zero (<[8%nat := 35]> src)) = 0.
Proof. cbv zeta. repeat split; vm_compute; reflexivity. Qed.

Lemma corrupt_one_byte_witness :
  fst (VLReadPacket VLPacket_zero (<[8%nat := 4]> [60; 3; 1; 3; 11; 3; 1; 2; 3]))
  = -2.
Proof.
  apply (corrupt_one_byte VLPacket_zero [60; 3; 1; 3; 11; 3; 1; 2; 3] 8 4).
  - repeat constructor; unfold is_byte; lia.
  - vm_compute; reflexivity.
  - simpl. lia.
  - unfold is_byte. lia.
  - vm_compute. discriminate.
Defined.

(** ** Directory codec *)

Lemma bytes_entry_app (e rest : list Z) :
  length e = 16%nat -> bytes_entry (e ++ rest) = bytes_entry e.
Proof.
  intros H. do 16 (destruct e as [|? e]; [discriminate H|]).
  destruct e; [reflexivity | discriminate H].
Qed.

Lemma bytes_header_app (h rest : list Z) :
  length h = 16%nat -> bytes_header (h ++ rest) = bytes_header h.
Proof.
  intros H. do 16 (destruct h as [|? h]; [discriminate H|]).
  destruct h; [reflexivity | discriminate H].
Qed.

(** The loop of [Read] never runs out of iterations when it is given the
    length of the buffer. *)
Lemma Read_loop_total (fuel : nat) (p : list Z) (m : gmap Z DirectoryEntry) :
  (length p <= fuel)%nat -> is_Some (Read_loop fuel p m).
Proof.
  revert p m. induction fuel as [|fuel IH]; intros p m Hp.
  - destruct p; [eexists; reflexivity | cbn [length] in Hp; lia].
  - destruct p as [|b p]; [eexists; reflexivity|].
    cbn [Read_loop]. unfold VLReadNextDirectoryEntry.
    destruct (Nat.ltb_spec (length (b :: p)) 16) as [Hlt | Hge].
    + eexists; reflexivity.
    + cbn [Z.ltb Z.compare]. apply IH. rewrite length_drop.
      change (Z.to_nat 16) with 16%nat. cbn [length] in *. lia.
Qed.

(** [Read] stops on a failed assertion only when the buffer is shorter
    than a header. *)
Lemma Read_is_Some (r : Reader) :
  (16 <= length (src_ r))%nat -> is_Some (Read r).
Proof.
  intros Hlen. unfold Read.
  destruct (VLReadDirectoryHeader (src_ r)) as [[read hdr]|] eqn:Hh.
  - cbv zeta. destruct (read <? 0); [eexists; reflexivity|].
    cbn [entries_].
    match goal with
    | |- context [Read_loop ?f ?p ?m] =>
        destruct (Read_loop_total f p m) as [[[|] entries] ->]
    end; [rewrite length_drop; lia | |]; eexists; reflexivity.
  - unfold VLReadDirectoryHeader in Hh.
    destruct (Nat.ltb_spec (length (src_ r)) 16) as [Hlt | _]; [lia|].
    repeat match type of Hh with
           | (if ?b then _ else _) = _ => destruct b
           end; discriminate Hh.
Qed.

Lemma Read_loop_entries (es : list (list Z)) (fuel : nat)
    (m : gmap Z DirectoryEntry) :
  Forall (fun e => length e = 16%nat) es ->
  (length (concat es) <= fuel)%nat ->
  Read_loop fuel (concat es) m
  = Some (true,
          fold_left (fun m e => map_emplace (DirectoryEntry_index e) e m)
            (map entry_of_bytes es) m).
Proof.
  intros Hes. revert fuel m.
  induction Hes as [|e es He Hes IH]; intros fuel m Hfuel.
  - destruct fuel; reflexivity.
  - cbn [concat] in *. rewrite length_app, He in Hfuel.
    destruct fuel as [|fuel]; [lia|].
    destruct e as [|b e]; [discriminate He|].
    cbn [app Read_loop]. change (b :: e ++ concat es) with ((b :: e) ++ concat es).
    unfold VLReadNextDirectoryEntry.
    replace (length ((b :: e) ++ concat es) <? 16)%nat with false
      by (rewrite length_app, He; lia).
    cbn [Z.ltb Z.compare]. change (Z.to_nat 16) with 16%nat.
    rewrite bytes_entry_app by exact He.
    rewrite drop_app_length' by (symmetry; exact He).
    rewrite IH by lia. reflexivity.
Qed.

Lemma emplace_fold_lookup (es : list DirectoryEntry) (m : gmap Z DirectoryEntry)
    (idx : Z) :
  fold_left (fun m e => map_emplace (DirectoryEntry_index e) e m) es m !! idx
  = match m !! idx with
    | Some e => Some e
    | None => find (fun e => DirectoryEntry_index e =? idx) es
    end.
Proof.
  revert m. induction es as [|e es IH]; intros m.
  - cbn [fold_left find]. destruct (m !! idx); reflexivity.
  - cbn [fold_left find]. rewrite IH. unfold map_emplace.
    destruct (Z.eqb_spec (DirectoryEntry_index e) idx) as [-> | Hne].
    + destruct (m !! idx) eqn:Hm.
      * rewrite Hm. reflexivity.
      * rewrite lookup_insert_eq. reflexivity.
    + destruct (m !! DirectoryEntry_index e) eqn:Hm; [reflexivity|].
      rewrite lookup_insert_ne by exact Hne. reflexivity.
Qed.

Lemma VLReadDirectoryHeader_valid (h rest : list Z) :
  valid_header h ->
  VLReadDirectoryHeader (h ++ rest) = Some (16, bytes_header h).
Proof.
  intros (Hlen & Hv & Hr & Ht). unfold VLReadDirectoryHeader.
  replace (length (h ++ rest) <? 16)%nat with false
    by (rewrite length_app; lia).
  rewrite bytes_header_app by exact Hlen.
  cbn [version record_length time_format bytes_header].
  rewrite Hv, Hr, Ht. reflexivity.
Qed.

(** C7 (amended): for a blob made of a valid 16-byte header followed by
    16-byte entries, [Read] succeeds and maps every index to the FIRST
    entry of the blob that carries it: when two entries carry the same
    index the earlier one is kept and the later one is dropped. *)
Theorem Read_first_entry_wins (h : list Z) (es : list (list Z)) :
  valid_header h -> Forall (fun e => length e = 16%nat) es ->
  exists r,
    Read (Reader_new (h ++ concat es)) = Some (true, r) /\
    forall idx : Z,
      entries_ r !! idx
      = find (fun e => DirectoryEntry_index e =? idx) (map entry_of_bytes es).
Proof.
  intros Hh Hes. pose proof Hh as (Hlen & _).
  unfold Read, Reader_new. cbn [src_ entries_ hdr_ valid_].
  rewrite VLReadDirectoryHeader_valid by exact Hh.
  cbn [Z.ltb Z.compare]. change (Z.to_nat 16) with 16%nat.
  rewrite drop_app_length' by (symmetry; exact Hlen).
  rewrite Read_loop_entries by (try exact Hes; rewrite length_app; lia).
  eexists. split; [reflexivity|].
  intros idx. cbn [entries_]. rewrite emplace_fold_lookup, lookup_empty.
  reflexivity.
Qed.

(** C7 fails as stated: [std::map::emplace] does not overwrite. *)
Lemma Read_duplicate_keeps_first :
  exists r,
    Read (Reader_new (dir_header ++ dir_entry_a ++ dir_entry_b)) = Some (true, r) /\
    DirectoryEntry_index (entry_of_bytes dir_entry_a) = 1 /\
    DirectoryEntry_index (entry_of_bytes dir_entry_b) = 1 /\
    entries_ r !! 1 = Some (entry_of_bytes dir_entry_a) /\
    entries_ r !! 1 <> Some (entry_of_bytes dir_entry_b).
Proof.
  eexists. split; [vm_compute; reflexivity|].
  repeat split; try (vm_compute; reflexivity).
  vm_compute. discriminate.
Qed.

Lemma Read_first_entry_wins_witness :
  exists r,
    Read (Reader_new (dir_header ++ concat [dir_entry_b; dir_entry_a]))
    = Some (true, r) /\
    forall idx : Z,
      entries_ r !! idx
      = find (fun e => DirectoryEntry_index e =? idx)
          (map entry_of_bytes [dir_entry_b; dir_entry_a]).
Proof.
  apply (Read_first_entry_wins dir_header [dir_entry_b; dir_entry_a]).
  - repeat split; reflexivity.
  - repeat constructor.
Defined.

(** ** Commands and protocol manager *)

Section ManagerProperties.

Variable delegate_WriteValue : list Z -> Z.
Variable uninit : VLPacket.
Variable reserve_returns : Z -> bool.


(** A packet that passed [VLReadPacket] has the payload length implied by
    the length of the value. *)
Lemma VLReadPacket_payload_length (dst : VLPacket) (value : list Z) (packet : VLPacket) :
  VLReadPacket dst value = (0, packet) ->
  payload_length packet = Z.of_nat (length value) - 6 /\
  0 <= payload_length packet <= 14.
Proof.
  rewrite VLReadPacket_unfold.
  destruct (header_ok value) eqn:Hok; cbn [negb]; [|discriminate].
  cbv zeta. destruct (Z.land 31 _ =? _); [|discriminate].
  intros [= <-]. cbn [payload_length bytes_packet].
  unfold header_ok, kPacketMaxLength, kPacketMinLength, kPacketOffsetPayload in Hok.
  assert (Hb : byte_at (value ++ drop (length value) (packet_bytes dst)) 1
               = byte_at value 1).
  { unfold byte_at. apply app_nth1. lia. }
  rewrite Hb. lia.
Qed.

Lemma SetTimeCommand_ReadPacket_negative (c : SetTimeCommand) (packet : VLPacket) :
  fst (SetTimeCommand_ReadPacket c packet) < 0 ->
  snd (SetTimeCommand_ReadPacket c packet) = c.
Proof.
  unfold SetTimeCommand_ReadPacket. cbv zeta.
  destruct (Z.eqb_spec (ReadAck packet kCommandSetTime) 0) as [-> | _];
    cbn [fst snd]; [lia | reflexivity].
Qed.

Lemma EraseCommand_ReadPacket_negative (c : EraseCommand) (packet : VLPacket) :
  fst (EraseCommand_ReadPacket c packet) < 0 ->
  snd (EraseCommand_ReadPacket c packet) = c.
Proof.
  unfold EraseCommand_ReadPacket, EraseCommand_ReadReply, EraseCommand_ReadAck.
  cbv zeta. destruct (er_has_ack_ c).
  - destruct (_ || is_finished_ c); [reflexivity|].
    destruct (_ || _ || _ || _); cbn [fst snd]; [reflexivity | lia].
  - destruct (Z.eqb_spec (ReadAck packet (er_cmd_ c)) 0) as [-> | _];
      cbn [fst snd]; [lia | reflexivity].
Qed.

Lemma DownloadCommand_ReadPacket_negative (c c' : DownloadCommand)
    (packet : VLPacket) (res : Z) :
  0 <= payload_length packet ->
  DownloadCommand_ReadPacket reserve_returns c packet = Some (res, c') ->
  res < 0 ->
  c' = c.
Proof.
  intros Hlen.
  unfold DownloadCommand_ReadPacket, DownloadCommand_ReadReply,
    DownloadCommand_ReadAck.
  cbv zeta. destruct (dl_has_ack_ c).
  - destruct (_ || _ || _); [now intros [= <- <-]|].
    destruct (negb (IsValid _)); [now intros [= <- <-]|].
    intros [= <- <-]. lia.
  - destruct (negb (ReadAck packet kCommandDownload =? 0)); [now intros [= <- <-]|].
    destruct (_ || _ || _); [now intros [= <- <-]|].
    destruct (reserve_returns _); [|discriminate].
    intros [= <- <-]. lia.
Qed.

Lemma Command_ReadPacket_negative (command command' : Command)
    (packet : VLPacket) (res : Z) :
  0 <= payload_length packet ->
  Command_ReadPacket reserve_returns command packet = Some (res, command') ->
  res < 0 ->
  command' = command.
Proof.
  intros Hlen. destruct command as [s | [d | e]]; cbn [Command_ReadPacket CommandWithReply_ReadPacket].
  - pose proof (SetTimeCommand_ReadPacket_negative s packet) as H.
    destruct (SetTimeCommand_ReadPacket s packet) as [res0 s']. cbn [fst snd] in *.
    intros [= <- <-] Hres. now rewrite H.
  - destruct (DownloadCommand_ReadPacket reserve_returns d packet)
      as [[res0 d']|] eqn:Hd; [|discriminate].
    intros [= <- <-] Hres.
    now rewrite (DownloadCommand_ReadPacket_negative d d' packet res0 Hlen Hd Hres).
  - pose proof (EraseCommand_ReadPacket_negative e packet) as H.
    destruct (EraseCommand_ReadPacket e packet) as [res0 e']. cbn [fst snd] in *.
    intros [= <- <-] Hres. now rewrite H.
Qed.

Lemma store_selected_same (m : Manager) (command : Command) :
  selected_command m = Some command -> store_selected m command = m.
Proof.
  destruct m as [c r]. unfold selected_command, store_selected.
  cbn [response_ command_]. destruct r as [r|].
  - intros [= <-]. reflexivity.
  - intros ->. reflexivity.
Qed.

Lemma NotifyValue_bad_header (m : Manager) (value : list Z) (command : Command) :
  selected_command m = Some command ->
  fst (VLReadPacket uninit value) <> 0 ->
  NotifyValue delegate_WriteValue uninit reserve_returns m value
  = Some (m, [DidError kVLManagerErrorBadHeader
                (Command_name command ++ ": invalid value notification")]).
Proof.
  intros Hsel Herr. unfold NotifyValue. rewrite Hsel.
  destruct (VLReadPacket uninit value) as [err packet]. cbn [fst] in Herr.
  destruct (Z.eqb_spec err 0); [contradiction | reflexivity].
Qed.

Lemma NotifyValue_bad_payload (m : Manager) (value : list Z)
    (command command' : Command) (packet : VLPacket) (res : Z) :
  selected_command m = Some command ->
  VLReadPacket uninit value = (0, packet) ->
  Command_ReadPacket reserve_returns command packet = Some (res, command') ->
  res < 0 ->
  NotifyValue delegate_WriteValue uninit reserve_returns m value
  = Some (m, [DidError kVLManagerErrorBadPayload
                (Command_name command ++ ": invalid value notification")]).
Proof.
  intros Hsel Hread Hcmd Hneg. unfold NotifyValue. rewrite Hsel, Hread.
  cbn [Z.eqb negb].
  destruct (VLReadPacket_payload_length _ _ _ Hread) as [_ [Hlen _]].
  pose proof (Command_ReadPacket_negative command command' packet res
                Hlen Hcmd Hneg) as Hsame.
  rewrite Hcmd. subst command'.
  rewrite store_selected_same by exact Hsel.
  destruct (Z.ltb_spec res 0); [reflexivity | lia].
Qed.

(** C9: when [notify_value] reports [BadHeader] for a framing or CRC
    failure, or [BadPayload] for a packet that the command rejects, the
    manager is left exactly as it was: the in-flight command stays
    installed with its state unchanged, so the next notification goes to
    the same command.  In particular a 20-byte value whose CRC bits do not
    match is answered with [did_error(BadHeader, ...)] and changes
    nothing. *)
Theorem NotifyValue_error_keeps_command (m : Manager) (value : list Z)
    (command : Command) :
  selected_command m = Some command ->
  (fst (VLReadPacket uninit value) <> 0 ->
   NotifyValue delegate_WriteValue uninit reserve_returns m value
   = Some (m, [DidError kVLManagerErrorBadHeader
                 (Command_name command ++ ": invalid value notification")])) /\
  (forall packet res command',
      VLReadPacket uninit value = (0, packet) ->
      Command_ReadPacket reserve_returns command packet = Some (res, command') ->
      res < 0 ->
      NotifyValue delegate_WriteValue uninit reserve_returns m value
      = Some (m, [DidError kVLManagerErrorBadPayload
                    (Command_name command ++ ": invalid value notification")])) /\
  (length value = 20%nat ->
   Z.land 31 (byte_at value 0) <> Z.land 31 (crc (drop 1 value)) ->
   NotifyValue delegate_WriteValue uninit reserve_returns m value
   = Some (m, [DidError kVLManagerErrorBadHeader
                 (Command_name command ++ ": invalid value notification")])).
Proof.
  intros Hsel. split; [|split].
  - apply NotifyValue_bad_header. exact Hsel.
  - intros packet res command'. apply NotifyValue_bad_payload. exact Hsel.
  - intros Hlen Hcrc. apply NotifyValue_bad_header; [exact Hsel|].
    rewrite VLReadPacket_unfold.
    destruct (header_ok value); cbn [negb fst]; [|discriminate].
    cbv zeta. destruct (Z.eqb_spec (Z.land 31 (byte_at value 0))
                          (Z.land 31 (crc (drop 1 value))));
      [contradiction | cbn [fst]; discriminate].
Qed.

Lemma store_selected_response (m : Manager) (command command' : Command)
    (packet : VLPacket) (res : Z) :
  selected_command m = Some command ->
  Command_ReadPacket reserve_returns command packet = Some (res, command') ->
  reply_ack delegate_WriteValue (store_selected m command') = reply_ack delegate_WriteValue m.
Proof.
  destruct m as [c r]. unfold selected_command, store_selected, reply_ack.
  cbn [response_ command_]. destruct r as [r|]; [|reflexivity].
  intros [= <-]. cbn [Command_ReadPacket].
  destruct r as [d | e]; cbn [CommandWithReply_ReadPacket].
  - destruct (DownloadCommand_ReadPacket reserve_returns d packet)
      as [[res' d']|]; [|discriminate].
    intros [= _ <-]. reflexivity.
  - destruct (EraseCommand_ReadPacket e packet) as [res' e'] eqn:He.
    intros [= _ <-]. cbn [ShouldAckReply]. unfold MakeResponseAckPacket. cbn [reply_cmd_]. do 2 f_equal.
    unfold EraseCommand_ReadPacket, EraseCommand_ReadReply,
      EraseCommand_ReadAck in He. cbv zeta in He.
    repeat match type of He with
           | (if ?b then _ else _) = _ => destruct b
           end; injection He as _ <-; reflexivity.
Qed.

(** C2 (amended): within one [notify_value] call that completes the
    in-flight command the order is: the command's [read_packet], then the
    completion callback, which [maybe_finish] runs ([on_finish(index,
    buffer)] for a download, [on_finish(true)] for set-time), then
    [did_finish_waiting], then the reply-ack write if the command is a
    reply command with [should_ack_reply] (without a new wait), and the
    reply slot is empty afterwards. *)
Theorem NotifyValue_finish_order (m : Manager) (value : list Z)
    (command command' : Command) (packet : VLPacket) (res : Z)
    (callbacks : list event) :
  selected_command m = Some command ->
  VLReadPacket uninit value = (0, packet) ->
  Command_ReadPacket reserve_returns command packet = Some (res, command') ->
  0 <= res ->
  Command_MaybeFinish command' = (true, callbacks) ->
  exists m',
    NotifyValue delegate_WriteValue uninit reserve_returns m value
    = Some (m', callbacks ++ [DidFinishWaiting]
                ++ reply_ack delegate_WriteValue m) /\
    response_ m' = None /\
    ~ In DidStartWaiting (reply_ack delegate_WriteValue m) /\
    (forall c, command' = CWithReply (RDownload c) ->
               callbacks = dl_on_finish_ c (dl_index_ c) (buf_ c)) /\
    (forall c, command' = CSetTime c -> callbacks = st_on_finish_ c true).
Proof.
  intros Hsel Hread Hcmd Hres Hfin.
  eexists. split; [|split; [|split; [|split]]].
  - unfold NotifyValue. rewrite Hsel, Hread. cbn [Z.eqb negb].
    rewrite Hcmd. destruct (Z.ltb_spec res 0); [lia|].
    rewrite Hfin.
    fold (reply_ack delegate_WriteValue (store_selected m command')).
    rewrite (store_selected_response m command command' packet res Hsel Hcmd).
    reflexivity.
  - reflexivity.
  - unfold reply_ack, WritePacket. destruct (response_ m) as [r|]; [|intros []].
    destruct (ShouldAckReply r); [|intros []].
    destruct (_ <? 0); cbn [In]; intros H;
      repeat (destruct H as [H | H]; [discriminate H|]); exact H.
  - intros d ->. cbn [Command_MaybeFinish CommandWithReply_MaybeFinish] in Hfin.
    unfold DownloadCommand_MaybeFinish in Hfin.
    destruct (_ && _); [|discriminate]. now injection Hfin as <-.
  - intros s ->. cbn [Command_MaybeFinish] in Hfin.
    unfold SetTimeCommand_MaybeFinish in Hfin. injection Hfin as -> <-.
    reflexivity.
Qed.

(** C4 (amended): for a SetTime command, when the inbound packet is a
    valid ack the completion callback fires with [true] and
    [did_finish_waiting] follows; when the packet fails framing
    ([BadHeader]) or is rejected for its command id ([BadPayload]) the
    error is reported, the completion callback does not fire, and the
    command stays installed unchanged. *)
Theorem SetTime_first_packet (c : SetTimeCommand) (value : list Z) :
  let m := {| command_ := Some (CSetTime c); response_ := None |} in
  (forall packet,
      VLReadPacket uninit value = (0, packet) ->
      ReadAck packet kCommandSetTime = 0 ->
      snd <$> NotifyValue delegate_WriteValue uninit reserve_returns m value
      = Some (st_on_finish_ c true ++ [DidFinishWaiting])) /\
  (fst (VLReadPacket uninit value) <> 0 ->
   NotifyValue delegate_WriteValue uninit reserve_returns m value
   = Some (m, [DidError kVLManagerErrorBadHeader
                 "set time command: invalid value notification"])) /\
  (forall packet,
      VLReadPacket uninit value = (0, packet) ->
      ReadAck packet kCommandSetTime < 0 ->
      NotifyValue delegate_WriteValue uninit reserve_returns m value
      = Some (m, [DidError kVLManagerErrorBadPayload
                    "set time command: invalid value notification"])).
Proof.
  intros m.
  assert (Hsel : selected_command m = Some (CSetTime c)) by reflexivity.
  split; [|split].
  - intros packet Hread Hack. unfold NotifyValue. rewrite Hsel, Hread.
    cbn [Z.eqb negb Command_ReadPacket]. unfold SetTimeCommand_ReadPacket.
    rewrite Hack. cbn [Z.eqb Z.ltb Z.compare Command_MaybeFinish].
    unfold SetTimeCommand_MaybeFinish. cbn [st_has_ack_ st_on_finish_ snd].
    unfold store_selected. cbn [response_ command_ fmap option_fmap option_map snd].
    now rewrite app_nil_r.
  - intros Herr. exact (NotifyValue_bad_header m value _ Hsel Herr).
  - intros packet Hread Hack.
    apply (NotifyValue_bad_payload m value (CSetTime c) (CSetTime c) packet
             (ReadAck packet kCommandSetTime) Hsel Hread); [|exact Hack].
    cbn [Command_ReadPacket]. unfold SetTimeCommand_ReadPacket.
    destruct (Z.eqb_spec (ReadAck packet kCommandSetTime) 0); [lia|].
    reflexivity.
Qed.


End ManagerProperties.

(** ** Scenarios *)

(** C2 fails as stated: the completion callback runs inside
    [maybe_finish], before [did_finish_waiting].  Here the reply that ends
    the download of file 3 is delivered. *)
Lemma download_callback_before_finish_waiting :
  snd <$> NotifyValue ok_delegate VLPacket_zero memory_below_4GiB download_acked
            download_reply
  = Some [DidDownloadFile 3 [1; 2; 3; 4]; DidFinishWaiting].
Proof. vm_compute. reflexivity. Qed.

Lemma NotifyValue_finish_order_witness :
  (exists m',
     NotifyValue ok_delegate VLPacket_zero memory_below_4GiB download_acked
       download_reply
     = Some (m', [DidDownloadFile 3 [1; 2; 3; 4]] ++ [DidFinishWaiting]
                 ++ reply_ack ok_delegate download_acked) /\
     response_ m' = None) /\
  (exists m',
     NotifyValue ok_delegate VLPacket_zero memory_below_4GiB erase_acked erase_reply
     = Some (m', [] ++ [DidFinishWaiting]
                 ++ [WriteValue (VLWritePacket (VLMakeAckPacket 0x050b))]) /\
     response_ m' = None).
Proof.
  split.
  - destruct (NotifyValue_finish_order ok_delegate VLPacket_zero memory_below_4GiB
                download_acked download_reply
                (CWithReply (RDownload
                   {| dl_cmd_ := kCommandDownload;
                      dl_reply_cmd_ := kCommandDownloadReply;
                      dl_has_ack_ := true; buf_ := [];
                      dl_on_finish_ := DownloadFile_on_finish;
                      burst_ := Burst_new; offset_ := 0;
                      length_ := 0xffffffff; dl_index_ := 3 |}))
                (CWithReply (RDownload
                   {| dl_cmd_ := kCommandDownload;
                      dl_reply_cmd_ := kCommandDownloadReply;
                      dl_has_ack_ := true; buf_ := [1; 2; 3; 4];
                      dl_on_finish_ := DownloadFile_on_finish;
                      burst_ := mkBurst (mkBurstState 7); offset_ := 0;
                      length_ := 0xffffffff; dl_index_ := 3 |}))
                (snd (VLReadPacket VLPacket_zero download_reply)) 4
                [DidDownloadFile 3 [1; 2; 3; 4]]
                ltac:(vm_compute; reflexivity)
                ltac:(vm_compute; reflexivity)
                ltac:(vm_compute; reflexivity)
                ltac:(lia)
                ltac:(vm_compute; reflexivity))
      as (m' & Hnotify & Hslot & _).
    exists m'. split; [exact Hnotify | exact Hslot].
  - destruct (NotifyValue_finish_order ok_delegate VLPacket_zero memory_below_4GiB
                erase_acked erase_reply
                (CWithReply (RErase
                   {| er_cmd_ := kCommandErase;
                      er_reply_cmd_ := kCommandEraseReply;
                      er_has_ack_ := true;
                      er_on_finish_ := EraseFile_on_finish 5;
                      er_index_ := 5; is_ok_ := false;
                      is_finished_ := false |}))
                (CWithReply (RErase
                   {| er_cmd_ := kCommandErase;
                      er_reply_cmd_ := kCommandEraseReply;
                      er_has_ack_ := true;
                      er_on_finish_ := EraseFile_on_finish 5;
                      er_index_ := 5; is_ok_ := false;
                      is_finished_ := true |}))
                (snd (VLReadPacket VLPacket_zero erase_reply)) 0 []
                ltac:(vm_compute; reflexivity)
                ltac:(vm_compute; reflexivity)
                ltac:(vm_compute; reflexivity)
                ltac:(lia)
                ltac:(vm_compute; reflexivity))
      as (m' & Hnotify & Hslot & _).
    exists m'. split; [exact Hnotify | exact Hslot].
Defined.

(** C3: what the code does for [erase_file(5)], the device's ack and the
    device's reply.  The command packet and the reply-ack are written as
    the claim says, but [did_erase_file] is never called: no event of the
    three calls is a [DidEraseFile]. *)
Lemma erase_file_never_reports :
  let '(m1, ev1) := EraseFile ok_delegate Manager_new 5 in
  returns (NotifyValue ok_delegate VLPacket_zero memory_below_4GiB m1 erase_ack)
    (fun '(m2, ev2) =>
  returns (NotifyValue ok_delegate VLPacket_zero memory_below_4GiB m2 erase_reply)
    (fun '(m3, ev3) =>
  ev1 = [WriteValue (VLWritePacket (VLMakePacket 7 0x040b [5; 0]));
         DidStartWaiting] /\
  VLWritePacket (VLMakePacket 7 0x040b [5; 0]) = [224; 2; 3; 1; 11; 4; 5; 0] /\
  ev2 = [] /\
  ev3 = [DidFinishWaiting; WriteValue (VLWritePacket (VLMakeAckPacket 0x050b))] /\
  (forall ok, ~ In (DidEraseFile 5 ok) (ev1 ++ ev2 ++ ev3)) /\
  m3 = Manager_new)).
Proof.
  vm_compute. repeat split; try reflexivity.
  intros ok H. repeat (destruct H as [H | H]; [discriminate H|]). exact H.
Qed.

(** C4 fails as stated: a first packet with the wrong command id is
    reported as [BadPayload]; the completion callback does not fire, the
    command stays installed, and the next notification (here a valid ack)
    is fed to it instead of raising [Unexpected]. *)
Lemma set_time_failure_keeps_command :
  let bad := erase_ack in
  returns (NotifyValue ok_delegate VLPacket_zero memory_below_4GiB set_time_issued bad)
    (fun '(m1, ev1) =>
  returns (NotifyValue ok_delegate VLPacket_zero memory_below_4GiB m1 set_time_ack)
    (fun '(m2, ev2) =>
  ev1 = [DidError kVLManagerErrorBadPayload
           "set time command: invalid value notification"] /\
  ~ In (DidSetTime false) ev1 /\
  m1 = set_time_issued /\
  command_ m1 <> None /\
  ev2 = [DidSetTime true; DidFinishWaiting])).
Proof.
  vm_compute. repeat split; try reflexivity; try discriminate.
  intros H. repeat (destruct H as [H | H]; [discriminate H|]). exact H.
Qed.

Lemma SetTime_first_packet_witness :
  let m := set_time_issued in
  snd <$> NotifyValue ok_delegate VLPacket_zero memory_below_4GiB m set_time_ack
  = Some ([DidSetTime true] ++ [DidFinishWaiting]) /\
  NotifyValue ok_delegate VLPacket_zero memory_below_4GiB m [1; 0; 1; 3; 8; 129]
  = Some (m, [DidError kVLManagerErrorBadHeader
                "set time command: invalid value notification"]) /\
  NotifyValue ok_delegate VLPacket_zero memory_below_4GiB m erase_ack
  = Some (m, [DidError kVLManagerErrorBadPayload
                "set time command: invalid value notification"]).
Proof.
  intros m.
  pose (c := SetTimeCommand_new 968934400 SetTime_on_finish).
  split; [|split].
  - apply (proj1 (SetTime_first_packet ok_delegate VLPacket_zero memory_below_4GiB
                    c set_time_ack)
             (snd (VLReadPacket VLPacket_zero set_time_ack)));
      vm_compute; reflexivity.
  - apply (proj1 (proj2 (SetTime_first_packet ok_delegate VLPacket_zero
                           memory_below_4GiB c [1; 0; 1; 3; 8; 129]))).
    vm_compute. discriminate.
  - apply (proj2 (proj2 (SetTime_first_packet ok_delegate VLPacket_zero
                           memory_below_4GiB c erase_ack))
             (snd (VLReadPacket VLPacket_zero erase_ack)));
      vm_compute; reflexivity.
Defined.

Lemma NotifyValue_error_keeps_command_witness :
  let crc_mismatch :=
    [0; 14; 1; 3; 11; 3; 0; 0; 0; 0; 0; 0; 0; 0; 0; 0; 0; 0; 0; 0] in
  let out_of_sequence := VLWritePacket (device_packet 3 0x030b [9]) in
  NotifyValue ok_delegate VLPacket_zero memory_below_4GiB download_acked crc_mismatch
  = Some (download_acked,
          [DidError kVLManagerErrorBadHeader
             "download command: invalid value notification"]) /\
  NotifyValue ok_delegate VLPacket_zero memory_below_4GiB download_acked out_of_sequence
  = Some (download_acked,
          [DidError kVLManagerErrorBadPayload
             "download command: invalid value notification"]).
Proof.
  intros crc_mismatch out_of_sequence.
  pose (command :=
    CWithReply (RDownload
      {| dl_cmd_ := kCommandDownload; dl_reply_cmd_ := kCommandDownloadReply;
         dl_has_ack_ := true; buf_ := [];
         dl_on_finish_ := DownloadFile_on_finish; burst_ := Burst_new;
         offset_ := 0; length_ := 0xffffffff; dl_index_ := 3 |})).
  assert (Hsel : selected_command download_acked = Some command)
    by (vm_compute; reflexivity).
  split.
  - apply (proj2 (proj2 (NotifyValue_error_keeps_command ok_delegate
                           VLPacket_zero memory_below_4GiB download_acked
                           crc_mismatch command Hsel))).
    + reflexivity.
    + vm_compute. discriminate.
  - apply (proj1 (proj2 (NotifyValue_error_keeps_command ok_delegate
                           VLPacket_zero memory_below_4GiB download_acked
                           out_of_sequence command Hsel))
             (snd (VLReadPacket VLPacket_zero out_of_sequence)) (-2) command);
      vm_compute; reflexivity.
Defined.

Lemma burst_invalid_not_absorbing_witness :
  Burst_ReadPacket (mkBurst (mkBurstState kSeqnoInvalid)) (seqno_packet 7)
  = mkBurst (mkBurstState 7) /\
  Burst_ReadPacket (mkBurst (mkBurstState kSeqnoInvalid)) (seqno_packet 3)
  = mkBurst (mkBurstState kSeqnoInvalid).
Proof.
  split.
  - apply (proj1 (burst_invalid_not_absorbing (seqno_packet 7))). reflexivity.
  - apply (proj2 (burst_invalid_not_absorbing (seqno_packet 3))).
    vm_compute. split; discriminate.
Defined.

(** Downloading the directory: the entries are reported in ascending
    order of their index, then the end of the directory, then the end of
    the wait. *)
Example download_directory_scenario :
  let m0 := fst (DownloadDirectory ok_delegate Manager_new) in
  let ack :=
    VLWritePacket
      (device_packet 7 0x810b
         (VLWriteLittleInt16 0 ++ VLWriteLittleInt32 0 ++ VLWriteLittleInt32 2)) in
  let reply s n := VLWritePacket (device_packet s 0x030b
                                    (firstn 14 (skipn n directory_blob))) in
  let notify := NotifyValue ok_delegate VLPacket_zero memory_below_4GiB in
  returns (notify m0 ack) (fun '(m1, ev1) =>
  returns (notify m1 (reply 0 0%nat)) (fun '(m2, ev2) =>
  returns (notify m2 (reply 1 14%nat)) (fun '(m3, ev3) =>
  returns (notify m3 (reply 2 28%nat)) (fun '(m4, ev4) =>
  returns (notify m4 (reply 7 42%nat)) (fun '(m5, ev5) =>
  ev1 ++ ev2 ++ ev3 ++ ev4 = [] /\
  ev5 = [DidParseDirectoryEntry
           {| posix_time := 899501056; de_length := 100; de_index := 1;
              de_file_type := 0x0180 |};
         DidParseDirectoryEntry
           {| posix_time := 899501056; de_length := 200; de_index := 2;
              de_file_type := 0x0480 |};
         DidFinishParsingDirectory;
         DidFinishWaiting] /\
  m5 = Manager_new))))).
Proof. vm_compute. repeat split; reflexivity. Qed.
(** * Further properties *)

(** ** CRC-8 and byte order *)

(** X1: the residue of the CRC is 0: data followed by its own CRC-8 has
    CRC-8 zero (the [residue=0] of [crc.hpp]). *)

Theorem crc_residue (data : list Z) : crc (data ++ [crc data]) = 0.
Proof.
  change (crc (data ++ [crc data])) with (crc_from 0 (data ++ [crc data])).
  rewrite crc_from_app. change (crc_from 0 data) with (crc data).
  unfold crc_from. cbn [fold_left]. rewrite Z.lxor_nilpotent. reflexivity.
Qed.

Lemma lookup_zero_iff (c : Z) :
  is_byte c -> nth (Z.to_nat c) lookup 0 = 0 -> c = 0.
Proof.
  unfold is_byte. intros Hc H.
  assert (Hall : forallb (fun c => negb (nth (Z.to_nat c) lookup 0 =? 0)
                                   || (c =? 0))
                   (map Z.of_nat (seq 0 256)) = true) by (vm_compute; reflexivity).
  pose proof (Z_below_forallb _ 256 Hall c ltac:(lia)) as Hb. cbv beta in Hb.
  lia.
Qed.

Lemma crc_from_zeros_nonzero (n : nat) (c : Z) :
  is_byte c -> c <> 0 -> crc_from c (replicate n 0) <> 0.
Proof.
  revert c. induction n as [|n IH]; intros c Hc Hne; [exact Hne|].
  cbn [replicate]. unfold crc_from. cbn [fold_left].
  fold (crc_from (nth (Z.to_nat (Z.lxor c 0)) lookup 0) (replicate n 0)).
  rewrite Z.lxor_0_r. apply IH; [apply lookup_is_byte|].
  intros H. apply Hne. apply lookup_zero_iff; assumption.
Qed.

(** X2: the untruncated CRC-8 tells apart any two buffers that differ in
    exactly one byte. *)

Theorem crc_detects_single_byte (pre post : list Z) (x v : Z) :
  Forall is_byte pre -> Forall is_byte post -> is_byte x -> is_byte v ->
  x <> v ->
  crc (pre ++ x :: post) <> crc (pre ++ v :: post).
Proof.
  intros Hpre Hpost Hx Hv Hne Heq.
  pose proof (crc_single_byte pre post x v Hpre Hpost Hx Hv) as Hd.
  rewrite Heq, Z.lxor_nilpotent in Hd. symmetry in Hd.
  change (crc (Z.lxor x v :: replicate (length post) 0))
    with (crc_from (nth (Z.to_nat (Z.lxor 0 (Z.lxor x v))) lookup 0)
            (replicate (length post) 0)) in Hd.
  rewrite Z.lxor_0_l in Hd.
  revert Hd. apply crc_from_zeros_nonzero; [apply lookup_is_byte|].
  intros H. apply lookup_zero_iff in H; [|apply lxor_is_byte; assumption].
  apply Hne. apply Z.lxor_eq_0_iff. exact H.
Qed.

Lemma read_write_int32 (x : Z) :
  0 <= x < 2 ^ 32 -> OSReadLittleInt32 (VLWriteLittleInt32 x) 0 = x.
Proof.
  intros Hx. unfold OSReadLittleInt32, VLWriteLittleInt32, byte_at.
  cbn [nth Nat.add].
  rewrite <- (Z.mod_small x (2 ^ 32)) at 5 by lia.
  change 256 with (2 ^ 8).
  apply Z.bits_inj'. intros n Hn.
  destruct (Z.lt_ge_cases n 32) as [Hlt | Hge].
  - rewrite !Z.mod_pow2_bits_low by lia. rewrite !Z.lor_spec.
    destruct (Z.lt_ge_cases n 8) as [H8 | H8];
      [| destruct (Z.lt_ge_cases n 16) as [H16 | H16];
         [| destruct (Z.lt_ge_cases n 24) as [H24 | H24]]];
      repeat first
        [ rewrite Z.shiftl_spec_low by lia
        | rewrite Z.shiftl_spec by lia
        | rewrite Z.mod_pow2_bits_low by lia
        | rewrite Z.mod_pow2_bits_high by lia
        | rewrite Z.shiftr_spec by lia ];
      rewrite ?orb_false_r, ?orb_false_l; try reflexivity; f_equal; lia.
  - rewrite !Z.mod_pow2_bits_high by lia. reflexivity.
Qed.

Lemma byte_at_app_r (pre l : list Z) (i : nat) :
  byte_at (pre ++ l) (length pre + i) = byte_at l i.
Proof.
  unfold byte_at. rewrite app_nth2 by lia. f_equal. lia.
Qed.

Lemma byte_at_app_l (l post : list Z) (i : nat) :
  (i < length l)%nat -> byte_at (l ++ post) i = byte_at l i.
Proof. intros Hi. unfold byte_at. apply app_nth1. exact Hi. Qed.

Lemma byte_at_app_mid (pre l post : list Z) (i : nat) :
  (i < length l)%nat ->
  byte_at (pre ++ l ++ post) (length pre + i) = byte_at l i.
Proof.
  intros Hi. rewrite byte_at_app_r. apply byte_at_app_l. exact Hi.
Qed.

Lemma OSReadLittleInt16_app (pre l post : list Z) :
  length l = 2%nat ->
  OSReadLittleInt16 (pre ++ l ++ post) (length pre) = OSReadLittleInt16 l 0.
Proof.
  intros Hl. unfold OSReadLittleInt16.
  pose proof (byte_at_app_mid pre l post 0) as H0.
  rewrite Nat.add_0_r in H0.
  rewrite H0, byte_at_app_mid by lia. reflexivity.
Qed.

Lemma OSReadLittleInt32_app (pre l post : list Z) :
  length l = 4%nat ->
  OSReadLittleInt32 (pre ++ l ++ post) (length pre) = OSReadLittleInt32 l 0.
Proof.
  intros Hl. unfold OSReadLittleInt32.
  pose proof (byte_at_app_mid pre l post 0) as H0.
  rewrite Nat.add_0_r in H0.
  rewrite H0, !byte_at_app_mid by lia. reflexivity.
Qed.

(** X3: a 16-bit or 32-bit value written little-endian anywhere into a
    buffer is read back from that offset unchanged. *)

Theorem endian_roundtrip_at_offset (pre post : list Z) (x16 x32 : Z) :
  0 <= x16 < 2 ^ 16 -> 0 <= x32 < 2 ^ 32 ->
  OSReadLittleInt16 (pre ++ VLWriteLittleInt16 x16 ++ post) (length pre) = x16 /\
  OSReadLittleInt32 (pre ++ VLWriteLittleInt32 x32 ++ post) (length pre) = x32.
Proof.
  intros H16 H32. split.
  - rewrite OSReadLittleInt16_app by reflexivity.
    apply read_write_int16. lia.
  - rewrite OSReadLittleInt32_app by reflexivity.
    apply read_write_int32. exact H32.
Qed.

Lemma endian_roundtrip_at_offset_witness :
  OSReadLittleInt16 ([9; 9; 9] ++ VLWriteLittleInt16 0x040b ++ [7]) 3 = 0x040b /\
  OSReadLittleInt32 ([9; 9; 9] ++ VLWriteLittleInt32 968934400 ++ [7]) 3
  = 968934400.
Proof.
  apply (endian_roundtrip_at_offset [9; 9; 9] [7] 0x040b 968934400); lia.
Defined.

(** The struct after a read that got past the length checks. *)

Lemma VLReadPacket_bytes (dst : VLPacket) (value : list Z) :
  header_ok value = true ->
  packet_bytes (snd (VLReadPacket dst value))
  = value ++ drop (length value) (packet_bytes dst).
Proof.
  intros Hok. rewrite VLReadPacket_unfold, Hok. cbn [negb]. cbv zeta.
  unfold header_ok, kPacketMaxLength, kPacketMinLength in Hok.
  destruct (Z.land 31 _ =? _); cbn [snd];
    apply packet_bytes_bytes_packet;
    rewrite length_app, length_drop, packet_bytes_length; lia.
Qed.

(** X4: decoding then encoding gives back the value. *)

Theorem read_write_roundtrip (dst : VLPacket) (value : list Z) (packet : VLPacket) :
  VLReadPacket dst value = (0, packet) ->
  VLWritePacket packet = value /\
  VLPacketLength packet = Z.of_nat (length value) /\
  6 <= VLPacketLength packet <= 20.
Proof.
  intros Hread.
  destruct (VLReadPacket_payload_length dst value packet Hread) as [Hlen Hrange].
  assert (Hok : header_ok value = true).
  { apply (proj1 (VLReadPacket_accepts dst value)). now rewrite Hread. }
  pose proof (VLReadPacket_bytes dst value Hok) as Hb.
  rewrite Hread in Hb. cbn [snd] in Hb.
  unfold VLWritePacket, VLPacketLength, kPacketOffsetPayload.
  rewrite Hb, Hlen.
  split; [|lia].
  replace (Z.to_nat (6 + (Z.of_nat (length value) - 6))) with (length value) by lia.
  apply take_app_length.
Qed.

Lemma read_write_roundtrip_witness :
  VLWritePacket (snd (VLReadPacket VLPacket_zero [233; 0; 1; 3; 11; 132]))
  = [233; 0; 1; 3; 11; 132] /\
  VLPacketLength (snd (VLReadPacket VLPacket_zero [233; 0; 1; 3; 11; 132]))
  = Z.of_nat (length [233; 0; 1; 3; 11; 132]) /\
  6 <= VLPacketLength (snd (VLReadPacket VLPacket_zero [233; 0; 1; 3; 11; 132]))
  <= 20.
Proof.
  apply (read_write_roundtrip VLPacket_zero [233; 0; 1; 3; 11; 132]).
  vm_compute. reflexivity.
Defined.

(** X5: the return code of [VLReadPacket] is 0, -1 or -2.  On -1 (length
    checks) the struct is untouched; otherwise, also on the CRC failure
    -2, its first bytes have been overwritten with the value. *)

Theorem VLReadPacket_codes (dst : VLPacket) (value : list Z) :
  (fst (VLReadPacket dst value) = 0 \/ fst (VLReadPacket dst value) = -1 \/
   fst (VLReadPacket dst value) = -2) /\
  (fst (VLReadPacket dst value) = -1 <-> header_ok value = false) /\
  (fst (VLReadPacket dst value) = -1 -> snd (VLReadPacket dst value) = dst) /\
  (fst (VLReadPacket dst value) <> -1 ->
   packet_bytes (snd (VLReadPacket dst value))
   = value ++ drop (length value) (packet_bytes dst)).
Proof.
  pose proof (VLReadPacket_bytes dst value) as Hb.
  rewrite VLReadPacket_unfold in *.
  destruct (header_ok value); cbn [negb] in *; cbv zeta in *.
  - specialize (Hb eq_refl).
    destruct (Z.land 31 _ =? _); cbn [fst snd] in *.
    + split; [tauto|]. split; [split; discriminate|].
      split; [discriminate | intros _; exact Hb].
    + split; [tauto|]. split; [split; discriminate|].
      split; [discriminate | intros _; exact Hb].
  - cbn [fst snd]. split; [tauto|]. split; [tauto|].
    split; [reflexivity | intros H; contradiction].
Qed.

(** ** Framing: acknowledgements and peers *)

Lemma lor_mod_pow2 (a b n : Z) :
  0 <= n -> Z.lor a b mod 2 ^ n = Z.lor (a mod 2 ^ n) (b mod 2 ^ n).
Proof.
  intros Hn. apply Z.bits_inj'. intros i Hi.
  destruct (Z.lt_ge_cases i n).
  - rewrite Z.lor_spec, !Z.mod_pow2_bits_low, Z.lor_spec by lia. reflexivity.
  - rewrite Z.lor_spec, !Z.mod_pow2_bits_high by lia. reflexivity.
Qed.

Lemma AcknowledgementForCommand_range (cmd_id : Z) :
  0 <= AcknowledgementForCommand cmd_id < 65536.
Proof. unfold AcknowledgementForCommand. apply Z.mod_pos_bound. lia. Qed.

Lemma AcknowledgementForCommand_idem (cmd_id : Z) :
  AcknowledgementForCommand (AcknowledgementForCommand cmd_id)
  = AcknowledgementForCommand cmd_id.
Proof.
  unfold AcknowledgementForCommand.
  rewrite !(lor_mod_pow2 _ _ 16) by lia.
  rewrite Z.mod_mod by lia.
  rewrite <- Z.lor_assoc, Z.lor_diag. reflexivity.
Qed.

(** X6: an acknowledgement packet is six bytes on the wire, carries the
    end sequence number 7, no payload, and the command id with the bit
    0x8000 set; acknowledging an acknowledgement id changes nothing. *)

Theorem VLMakeAckPacket_wire (cmd_id : Z) :
  0 <= cmd_id < 65536 ->
  let packet := VLMakeAckPacket cmd_id in
  length (VLWritePacket packet) = 6%nat /\
  VLPacketSeqno packet = kVLSeqnoEnd /\
  payload_length packet = 0 /\
  OSReadLittleInt16 (cmd packet) 0 = AcknowledgementForCommand cmd_id /\
  Z.land (OSReadLittleInt16 (cmd packet) 0) 0x8000 = 0x8000 /\
  VLMakeAckPacket (AcknowledgementForCommand cmd_id) = packet.
Proof.
  intros Hcmd packet. subst packet. unfold VLMakeAckPacket.
  change (Z.lor cmd_id 32768 mod 2 ^ 16) with (AcknowledgementForCommand cmd_id).
  pose proof (AcknowledgementForCommand_range cmd_id) as Hr.
  rewrite VLWritePacket_VLMakePacket by (cbn; lia).
  split; [reflexivity|].
  split.
  { unfold VLPacketSeqno. rewrite VLMakePacket_crc by (cbn; lia).
    match goal with
    | |- Z.shiftr (Z.lor _ (Z.land 31 (crc ?t))) 5 = _ =>
        apply (seqno_crc_byte kVLSeqnoEnd (crc t));
          [unfold kVLSeqnoEnd; lia | apply crc_is_byte]
    end. }
  split; [reflexivity|].
  assert (Hid : OSReadLittleInt16
                  (cmd (VLMakePacket kVLSeqnoEnd (AcknowledgementForCommand cmd_id) []))
                  0 = AcknowledgementForCommand cmd_id).
  { cbn [cmd VLMakePacket]. apply read_write_int16. lia. }
  split; [exact Hid|]. split.
  - rewrite Hid. unfold AcknowledgementForCommand.
    apply Z.bits_inj'. intros i Hi. rewrite Z.land_spec.
    destruct (Z.eq_dec i 15) as [-> | Hne].
    + rewrite Z.mod_pow2_bits_low, Z.lor_spec by lia.
      change (Z.testbit 32768 15) with true. now rewrite orb_true_r.
    + replace (Z.testbit 32768 i) with false; [apply andb_false_r|].
      symmetry. change 32768 with (2 ^ 15). apply Z.pow2_bits_false. lia.
  - change (Z.lor (AcknowledgementForCommand cmd_id) 32768 mod 2 ^ 16)
      with (AcknowledgementForCommand (AcknowledgementForCommand cmd_id)).
    now rewrite AcknowledgementForCommand_idem.
Qed.

Lemma VLMakeAckPacket_wire_witness :
  let packet := VLMakeAckPacket 0x050b in
  length (VLWritePacket packet) = 6%nat /\
  VLPacketSeqno packet = kVLSeqnoEnd /\
  payload_length packet = 0 /\
  OSReadLittleInt16 (cmd packet) 0 = AcknowledgementForCommand 0x050b /\
  Z.land (OSReadLittleInt16 (cmd packet) 0) 0x8000 = 0x8000 /\
  VLMakeAckPacket (AcknowledgementForCommand 0x050b) = packet.
Proof. apply (VLMakeAckPacket_wire 0x050b). lia. Defined.

(** X7: [ReadAck] returns 0 exactly for a packet marked device-to-host
    that carries the acknowledgement id of the command; a packet with the
    wrong peers gives +1 and one with the wrong id -2. *)

Theorem ReadAck_result (packet : VLPacket) (cmd_id : Z) :
  (ReadAck packet cmd_id = 0 <->
   sender packet = kPeerViiiiva /\ receiver packet = kPeerHost /\
   OSReadLittleInt16 (cmd packet) 0 = AcknowledgementForCommand cmd_id) /\
  (ReadAck packet cmd_id = 1 <->
   sender packet <> kPeerViiiiva \/ receiver packet <> kPeerHost) /\
  (ReadAck packet cmd_id = -2 <->
   sender packet = kPeerViiiiva /\ receiver packet = kPeerHost /\
   OSReadLittleInt16 (cmd packet) 0 <> AcknowledgementForCommand cmd_id).
Proof.
  unfold ReadAck, VLValidatePacketFromViva. cbv zeta.
  destruct (Z.eqb_spec (sender packet) kPeerViiiiva) as [Hs | Hs];
    destruct (Z.eqb_spec (receiver packet) kPeerHost) as [Hr | Hr];
    cbn [negb orb Z.eqb];
    try (repeat split; intros; try discriminate; try tauto; lia).
  destruct (Z.eqb_spec (OSReadLittleInt16 (cmd packet) 0)
              (AcknowledgementForCommand cmd_id)) as [Hc | Hc];
    cbn [negb]; repeat split; intros; try discriminate; try tauto; lia.
Qed.

(** A well-framed value's peer bytes are the packet's sender and receiver. *)

Lemma VLReadPacket_peers (dst : VLPacket) (value : list Z) (packet : VLPacket) :
  VLReadPacket dst value = (0, packet) ->
  sender packet = byte_at value 2 /\ receiver packet = byte_at value 3 /\
  OSReadLittleInt16 (cmd packet) 0 = OSReadLittleInt16 value 4.
Proof.
  intros Hread.
  assert (Hok : header_ok value = true).
  { apply (proj1 (VLReadPacket_accepts dst value)). now rewrite Hread. }
  rewrite VLReadPacket_unfold, Hok in Hread. cbn [negb] in Hread.
  cbv zeta in Hread. destruct (Z.land 31 _ =? _); [|discriminate].
  injection Hread as <-.
  unfold header_ok, kPacketMaxLength, kPacketMinLength in Hok.
  assert (Hlen : (6 <= length value)%nat) by lia.
  do 6 (destruct value as [|? value]; [cbn [length] in Hlen; lia|]).
  repeat split.
Qed.

(** X8: a packet that is not marked device-to-host never changes the
    state of a command, whatever the command and its phase. *)

Theorem Command_ReadPacket_wrong_peer (reserve_returns : Z -> bool)
    (command : Command) (packet : VLPacket) :
  sender packet <> kPeerViiiiva \/ receiver packet <> kPeerHost ->
  exists res,
    Command_ReadPacket reserve_returns command packet = Some (res, command) /\
    res <> 0.
Proof.
  intros Hpeer.
  assert (Hv : VLValidatePacketFromViva packet = 1).
  { unfold VLValidatePacketFromViva.
    destruct (Z.eqb_spec (sender packet) kPeerViiiiva);
      destruct (Z.eqb_spec (receiver packet) kPeerHost); cbn [negb orb];
      try reflexivity. tauto. }
  assert (Hack : forall c, ReadAck packet c = 1).
  { intros c. unfold ReadAck. rewrite Hv. reflexivity. }
  destruct command as [s | [d | e]];
    cbn [Command_ReadPacket CommandWithReply_ReadPacket].
  - unfold SetTimeCommand_ReadPacket. rewrite Hack. cbn.
    eexists. split; [reflexivity | lia].
  - unfold DownloadCommand_ReadPacket, DownloadCommand_ReadReply,
      DownloadCommand_ReadAck. rewrite Hack, Hv.
    destruct (dl_has_ack_ d); cbn [Z.eqb negb].
    + rewrite !orb_true_r. cbn. eexists. split; [reflexivity | lia].
    + cbn. eexists. split; [reflexivity | lia].
  - unfold EraseCommand_ReadPacket, EraseCommand_ReadReply, EraseCommand_ReadAck.
    rewrite Hack, Hv. destruct (er_has_ack_ e); cbn [Z.eqb negb].
    + destruct (is_finished_ e); cbn [orb];
        [cbn; eexists; split; [reflexivity | lia]|].
      rewrite !orb_true_r. cbn. eexists. split; [reflexivity | lia].
    + cbn. eexists. split; [reflexivity | lia].
Qed.

Lemma Command_ReadPacket_wrong_peer_witness :
  let command := CSetTime (SetTimeCommand_new 968934400 SetTime_on_finish) in
  let packet := VLMakePacket 7 0x8108 [] in
  exists res,
    Command_ReadPacket memory_below_4GiB command packet = Some (res, command) /\
    res <> 0.
Proof.
  apply (Command_ReadPacket_wrong_peer memory_below_4GiB
           (CSetTime (SetTimeCommand_new 968934400 SetTime_on_finish))
           (VLMakePacket 7 0x8108 [])).
  left. vm_compute. discriminate.
Defined.

(** ** Sequence numbers, burst tracker and time *)

Lemma VLGetNextSeqno_range (s : Z) : 1 <= VLGetNextSeqno s <= 6.
Proof.
  unfold VLGetNextSeqno, kSeqnoModulus.
  pose proof (Z.mod_pos_bound s 6 ltac:(lia)) as H.
  rewrite Z.mod_small by lia. lia.
Qed.

(** X9: the successor of any sequence number lies in 1..6, so it is
    never the start value 0, the end marker 7 or the invalid sentinel 8;
    on 1..6 it is the cyclic successor, with period 6. *)

Theorem VLGetNextSeqno_ring (s k : Z) :
  1 <= k <= 6 ->
  1 <= VLGetNextSeqno s <= 6 /\
  VLGetNextSeqno k = (if k =? 6 then 1 else k + 1) /\
  Nat.iter 6 VLGetNextSeqno k = k.
Proof.
  intros Hk. split; [apply VLGetNextSeqno_range|].
  assert (Hc : k = 1 \/ k = 2 \/ k = 3 \/ k = 4 \/ k = 5 \/ k = 6) by lia.
  destruct Hc as [-> | [-> | [-> | [-> | [-> | ->]]]]]; split; reflexivity.
Qed.

Lemma VLGetNextSeqno_ring_witness :
  1 <= VLGetNextSeqno 255 <= 6 /\
  VLGetNextSeqno 6 = (if 6 =? 6 then 1 else 6 + 1) /\
  Nat.iter 6 VLGetNextSeqno 6 = 6.
Proof. apply (VLGetNextSeqno_ring 255 6). lia. Defined.

(** X10: a packet is accepted by the tracker exactly when the burst has
    not ended and the packet carries the expected sequence number or the
    end marker; the burst has ended afterwards exactly when an accepted
    packet carried the end marker.  In particular an ended burst rejects
    every packet. *)

Theorem Burst_ReadPacket_accepts (b : Burst) (p : VLPacket) :
  (IsValid (Burst_ReadPacket b p) = true <->
   seqno (burst_state_ b) <> kVLSeqnoEnd /\
   (VLPacketSeqno p = seqno (burst_state_ b) \/ VLPacketSeqno p = kVLSeqnoEnd)) /\
  (HasEnded (Burst_ReadPacket b p) = true <->
   seqno (burst_state_ b) <> kVLSeqnoEnd /\ VLPacketSeqno p = kVLSeqnoEnd) /\
  (HasEnded b = true -> IsValid (Burst_ReadPacket b p) = false).
Proof.
  unfold Burst_ReadPacket, IsValid, HasEnded, VLDoesSeqnoMatch.
  pose proof (VLGetNextSeqno_range (VLPacketSeqno p)) as Hn.
  unfold kVLSeqnoEnd, kSeqnoInvalid in *.
  destruct (Z.eqb_spec (VLPacketSeqno p) (seqno (burst_state_ b))) as [He | He];
    destruct (Z.eqb_spec (VLPacketSeqno p) 7) as [H7 | H7];
    destruct (Z.eqb_spec (seqno (burst_state_ b)) 7) as [Hb | Hb];
    cbn [negb orb burst_state_ seqno];
    rewrite ?H7; cbn [Z.eqb negb Pos.eqb];
    repeat split; intros; try discriminate; try tauto; try lia.
Qed.

(** X11: after any packet the stored value is in 1..8, so a burst that
    has read a packet is never empty again. *)

Theorem Burst_ReadPacket_never_empty (b : Burst) (p : VLPacket) :
  1 <= seqno (burst_state_ (Burst_ReadPacket b p)) <= 8 /\
  IsEmpty (Burst_ReadPacket b p) = false.
Proof.
  unfold Burst_ReadPacket, IsEmpty, kSeqnoUninitialized, kSeqnoInvalid, kVLSeqnoEnd.
  pose proof (VLGetNextSeqno_range (VLPacketSeqno p)) as Hn.
  destruct (_ || _); cbn [burst_state_ seqno]; [split; [lia | reflexivity]|].
  destruct (Z.eqb_spec (VLPacketSeqno p) 7) as [-> | H7]; cbn [burst_state_ seqno].
  - split; [lia | reflexivity].
  - split; [lia|]. lia.
Qed.

(** X12: the other direction of the time conversion: every 32-bit device
    time survives the trip to POSIX time and back, and its POSIX time lies
    in the 2^32 seconds that start at the device epoch. *)

Theorem device_time_roundtrip (viva_time : Z) :
  0 <= viva_time < 2 ^ 32 ->
  VLGetVivaTimeFromPosix (VLGetPosixTimeFromViva viva_time) = viva_time /\
  kAntEpoch <= VLGetPosixTimeFromViva viva_time < kAntEpoch + 2 ^ 32 /\
  is_time_t (VLGetPosixTimeFromViva viva_time).
Proof.
  intros Hd.
  assert (Hp : VLGetPosixTimeFromViva viva_time = viva_time + kAntEpoch).
  { unfold VLGetPosixTimeFromViva, to_time_t, kAntEpoch.
    rewrite (Z.mod_small (viva_time + 631065600)) by lia.
    rewrite Z.mod_small by lia. lia. }
  rewrite Hp. unfold VLGetVivaTimeFromPosix, is_time_t, kAntEpoch.
  replace (viva_time + 631065600 - 631065600) with viva_time by lia.
  rewrite Z.mod_small by lia. lia.
Qed.

Lemma device_time_roundtrip_witness :
  VLGetVivaTimeFromPosix (VLGetPosixTimeFromViva 0x10000000) = 0x10000000 /\
  kAntEpoch <= VLGetPosixTimeFromViva 0x10000000 < kAntEpoch + 2 ^ 32 /\
  is_time_t (VLGetPosixTimeFromViva 0x10000000).
Proof. apply (device_time_roundtrip 0x10000000). lia. Defined.

(** ** Download command *)

(** X13: reading a packet never changes what a download asked for (index,
    offset, length, command ids, callback), never takes back a received
    acknowledgement, and only ever appends to the buffer.  [c'] is the
    command after the call: the state returned, or [c] itself when the call
    throws. *)

Theorem DownloadCommand_ReadPacket_preserves (reserve_returns : Z -> bool)
    (c : DownloadCommand) (packet : VLPacket) :
  let c' :=
    from_option snd c (DownloadCommand_ReadPacket reserve_returns c packet) in
  dl_index_ c' = dl_index_ c /\ offset_ c' = offset_ c /\
  length_ c' = length_ c /\ dl_cmd_ c' = dl_cmd_ c /\
  dl_reply_cmd_ c' = dl_reply_cmd_ c /\
  dl_on_finish_ c' = dl_on_finish_ c /\
  (dl_has_ack_ c = true -> dl_has_ack_ c' = true) /\
  (exists chunk, buf_ c' = buf_ c ++ chunk) /\
  (dl_has_ack_ c = false -> buf_ c' = buf_ c /\ burst_ c' = burst_ c).
Proof.
  cbv zeta.
  unfold DownloadCommand_ReadPacket, DownloadCommand_ReadReply,
    DownloadCommand_ReadAck. cbv zeta.
  assert (Hnil : exists chunk, buf_ c = buf_ c ++ chunk)
    by (exists []; now rewrite app_nil_r).
  destruct (dl_has_ack_ c) eqn:Hack;
    repeat match goal with
           | |- context [if ?b then _ else _] => destruct b
           end;
    cbn [from_option snd buf_ burst_ dl_index_ offset_ length_ dl_cmd_
           dl_reply_cmd_ dl_on_finish_ dl_has_ack_];
    repeat match goal with |- _ /\ _ => split end;
    try (intros;
         first [ assumption | reflexivity | discriminate
               | split; reflexivity | eexists; reflexivity ]).
Qed.

(** The payload of a well-framed value: the bytes after the six header
    bytes, followed by what the struct held before. *)

Lemma VLReadPacket_payload (dst : VLPacket) (value : list Z) (packet : VLPacket) :
  VLReadPacket dst value = (0, packet) ->
  firstn (Z.to_nat (payload_length packet)) (payload packet) = drop 6 value /\
  exists rest, payload packet = drop 6 value ++ rest.
Proof.
  intros Hread.
  destruct (VLReadPacket_payload_length dst value packet Hread) as [Hlen Hrange].
  assert (Hok : header_ok value = true).
  { apply (proj1 (VLReadPacket_accepts dst value)). now rewrite Hread. }
  rewrite VLReadPacket_unfold, Hok in Hread. cbn [negb] in Hread.
  cbv zeta in Hread. destruct (Z.land 31 _ =? _); [|discriminate].
  injection Hread as <-. cbn [payload payload_length bytes_packet] in *.
  assert (H6 : (6 <= length value <= 20)%nat) by lia.
  rewrite drop_app_le by lia.
  assert (Hp : take 14 (drop 6 value ++ drop (length value) (packet_bytes dst))
               = drop 6 value ++ drop (length value) (packet_bytes dst)).
  { apply firstn_all2. rewrite length_app, !length_drop, packet_bytes_length. lia. }
  rewrite Hp. split; [|eexists; reflexivity].
  apply take_app_length'. rewrite length_drop. lia.
Qed.

Lemma ReadAck_zero (packet : VLPacket) (cmd_id : Z) :
  sender packet = kPeerViiiiva -> receiver packet = kPeerHost ->
  OSReadLittleInt16 (cmd packet) 0 = AcknowledgementForCommand cmd_id ->
  ReadAck packet cmd_id = 0.
Proof.
  intros Hs Hr Hc. unfold ReadAck, VLValidatePacketFromViva.
  rewrite Hs, Hr, Hc, !Z.eqb_refl. reflexivity.
Qed.

(** An accepted packet ends the burst exactly when it carries the end
    marker. *)

Lemma Burst_ReadPacket_ended (b : Burst) (p : VLPacket) :
  IsValid (Burst_ReadPacket b p) = true ->
  HasEnded (Burst_ReadPacket b p) = (VLPacketSeqno p =? kVLSeqnoEnd).
Proof.
  unfold Burst_ReadPacket, IsValid, HasEnded.
  pose proof (VLGetNextSeqno_range (VLPacketSeqno p)) as Hn.
  unfold kVLSeqnoEnd, kSeqnoInvalid in *.
  destruct (_ || _); cbn [burst_state_ seqno negb]; [discriminate|].
  destruct (Z.eqb_spec (VLPacketSeqno p) 7) as [-> | H7];
    cbn [burst_state_ seqno]; [reflexivity|].
  intros _. lia.
Qed.

Lemma VLReadPacket_payload_byte (dst : VLPacket) (value : list Z)
    (packet : VLPacket) (i : nat) :
  VLReadPacket dst value = (0, packet) ->
  (6 + i < length value)%nat ->
  byte_at (payload packet) i = byte_at value (6 + i).
Proof.
  intros Hread Hi.
  destruct (VLReadPacket_payload dst value packet Hread) as [_ [rest ->]].
  rewrite byte_at_app_l by (rewrite length_drop; lia).
  unfold byte_at. rewrite !nth_lookup, lookup_drop. reflexivity.
Qed.

Section DownloadProperties.

Variable delegate_WriteValue : list Z -> Z.
Variable uninit : VLPacket.
Variable reserve_returns : Z -> bool.

(** X14: while a download is in its reply phase, a value that the command
    accepts appends exactly its bytes after the six header bytes to the
    buffer.  If the value carries the end marker 7 the command completes:
    the callback receives the index and the whole buffer, then
    [did_finish_waiting] follows and the reply slot is released; otherwise
    nothing is reported and the download continues. *)

Theorem NotifyValue_download_reply (c : DownloadCommand) (simple : option Command)
    (value : list Z) (packet : VLPacket) :
  dl_has_ack_ c = true ->
  VLReadPacket uninit value = (0, packet) ->
  0 <= fst (DownloadCommand_ReadReply c packet) ->
  let m := {| command_ := simple; response_ := Some (RDownload c) |} in
  let data := buf_ c ++ drop 6 value in
  NotifyValue delegate_WriteValue uninit reserve_returns m value
  = Some
      (if VLPacketSeqno packet =? kVLSeqnoEnd
       then ({| command_ := simple; response_ := None |},
             dl_on_finish_ c (dl_index_ c) data ++ [DidFinishWaiting])
       else ({| command_ := simple;
                response_ :=
                  Some (RDownload
                          {| dl_cmd_ := dl_cmd_ c;
                             dl_reply_cmd_ := dl_reply_cmd_ c;
                             dl_has_ack_ := true; buf_ := data;
                             dl_on_finish_ := dl_on_finish_ c;
                             burst_ := Burst_ReadPacket (burst_ c) packet;
                             offset_ := offset_ c; length_ := length_ c;
                             dl_index_ := dl_index_ c |}) |},
             [])).
Proof.
  intros Hack Hread Hres m data.
  destruct (VLReadPacket_payload uninit value packet Hread) as [Hpay _].
  destruct (VLReadPacket_payload_length uninit value packet Hread) as [_ [Hlen _]].
  unfold NotifyValue, selected_command. cbn [response_ m].
  rewrite Hread. cbn [Z.eqb negb Command_ReadPacket CommandWithReply_ReadPacket].
  unfold DownloadCommand_ReadPacket. rewrite Hack.
  unfold DownloadCommand_ReadReply in *.
  destruct (_ || _ || _); [cbn [fst] in Hres; lia|].
  destruct (IsValid (Burst_ReadPacket (burst_ c) packet)) eqn:Hvalid;
    cbn [negb] in *; [|cbn [fst] in Hres; lia].
  rewrite Hpay, Hack. fold data.
  destruct (Z.ltb_spec (payload_length packet) 0); [lia|].
  unfold store_selected. cbn [response_ command_ Command_MaybeFinish
                              CommandWithReply_MaybeFinish].
  unfold DownloadCommand_MaybeFinish.
  cbn [dl_has_ack_ burst_ buf_ dl_on_finish_ dl_index_ andb ShouldAckReply].
  rewrite (Burst_ReadPacket_ended (burst_ c) packet Hvalid).
  destruct (VLPacketSeqno packet =? kVLSeqnoEnd); [|reflexivity].
  now rewrite app_nil_r.
Qed.

(** X15: in the acknowledgement phase of a download, a well-framed
    device-to-host value of at least 16 bytes with the id 0x810b that does
    not echo the index and the offset of the request, or announces more
    than the requested length, is reported as [BadPayload] and changes
    nothing.  Otherwise the command reserves the announced length (16 bytes
    for each announced record when the directory is downloaded): if the
    reservation returns, the command enters its reply phase and nothing is
    reported; if it throws, the exception leaves [notify_value]. *)

Theorem NotifyValue_download_ack (c : DownloadCommand) (simple : option Command)
    (value : list Z) (packet : VLPacket) :
  dl_has_ack_ c = false ->
  HasEnded (burst_ c) = false ->
  VLReadPacket uninit value = (0, packet) ->
  (16 <= length value)%nat ->
  byte_at value 2 = kPeerViiiiva -> byte_at value 3 = kPeerHost ->
  OSReadLittleInt16 value 4 = AcknowledgementForCommand kCommandDownload ->
  let m := {| command_ := simple; response_ := Some (RDownload c) |} in
  let echo_index := OSReadLittleInt16 value 6 in
  let echo_offset := OSReadLittleInt32 value 8 in
  let reply_length := OSReadLittleInt32 value 12 in
  let reserved :=
    if dl_index_ c =? 0 then 16 * reply_length else reply_length in
  NotifyValue delegate_WriteValue uninit reserve_returns m value
  = if (dl_index_ c =? echo_index) && (offset_ c =? echo_offset) &&
       (reply_length <=? length_ c)
    then
      if reserve_returns reserved
      then
        Some ({| command_ := simple;
                 response_ :=
                   Some (RDownload
                           {| dl_cmd_ := dl_cmd_ c;
                              dl_reply_cmd_ := dl_reply_cmd_ c;
                              dl_has_ack_ := true; buf_ := buf_ c;
                              dl_on_finish_ := dl_on_finish_ c;
                              burst_ := burst_ c;
                              offset_ := offset_ c; length_ := length_ c;
                              dl_index_ := dl_index_ c |}) |},
              [])
      else None
    else Some (m, [DidError kVLManagerErrorBadPayload
                     "download command: invalid value notification"]).
Proof.
  intros Hack Hburst Hread Hlen Hs Hr Hcmd m echo_index echo_offset reply_length
    reserved.
  destruct (VLReadPacket_peers uninit value packet Hread) as (Hps & Hpr & Hpc).
  assert (H16 : OSReadLittleInt16 (payload packet) 0 = echo_index).
  { unfold echo_index, OSReadLittleInt16.
    rewrite !(VLReadPacket_payload_byte uninit value packet) by (exact Hread || lia).
    reflexivity. }
  assert (H32a : OSReadLittleInt32 (payload packet) 2 = echo_offset).
  { unfold echo_offset, OSReadLittleInt32.
    rewrite !(VLReadPacket_payload_byte uninit value packet) by (exact Hread || lia).
    reflexivity. }
  assert (H32b : OSReadLittleInt32 (payload packet) 6 = reply_length).
  { unfold reply_length, OSReadLittleInt32.
    rewrite !(VLReadPacket_payload_byte uninit value packet) by (exact Hread || lia).
    reflexivity. }
  assert (Hra : ReadAck packet kCommandDownload = 0).
  { apply ReadAck_zero; congruence. }
  assert (Hrange : 0 <= reply_length < 2 ^ 32).
  { unfold reply_length, OSReadLittleInt32. apply Z.mod_pos_bound. lia. }
  assert (Hreserved :
            (if dl_index_ c =? kDirectoryIndex
             then (reply_length * kDirectoryRecordLength) mod 2 ^ 64
             else reply_length) = reserved).
  { unfold reserved, kDirectoryIndex, kDirectoryRecordLength.
    destruct (dl_index_ c =? 0); [|reflexivity].
    rewrite Z.mod_small by lia. lia. }
  unfold NotifyValue, selected_command. cbn [response_ m].
  rewrite Hread. cbn [Z.eqb negb Command_ReadPacket CommandWithReply_ReadPacket].
  unfold DownloadCommand_ReadPacket. rewrite Hack.
  unfold DownloadCommand_ReadAck. rewrite Hra, H16, H32a, H32b.
  cbn [Z.eqb negb]. cbv zeta. rewrite Hreserved.
  destruct (Z.eqb_spec (dl_index_ c) echo_index);
    destruct (Z.eqb_spec (offset_ c) echo_offset);
    destruct (Z.leb_spec reply_length (length_ c));
    cbn [negb orb andb];
    try (replace (reply_length >? length_ c) with true by lia);
    try (replace (reply_length >? length_ c) with false by lia);
    cbn [Z.ltb Z.compare Command_name CommandWithReply_name store_selected
           response_ command_]; try reflexivity.
  destruct (reserve_returns reserved); [|reflexivity].
  cbn [Z.ltb Z.compare].
  unfold store_selected. cbn [response_ command_ Command_MaybeFinish
                              CommandWithReply_MaybeFinish].
  unfold DownloadCommand_MaybeFinish. cbn [dl_has_ack_ burst_ andb].
  rewrite Hburst. reflexivity.
Qed.

End DownloadProperties.

Lemma NotifyValue_download_reply_witness :
  let c := DownloadCommand_new2 3 DownloadFile_on_finish in
  let acked :=
    {| dl_cmd_ := dl_cmd_ c; dl_reply_cmd_ := dl_reply_cmd_ c;
       dl_has_ack_ := true; buf_ := [9]; dl_on_finish_ := dl_on_finish_ c;
       burst_ := burst_ c; offset_ := offset_ c; length_ := length_ c;
       dl_index_ := dl_index_ c |} in
  NotifyValue ok_delegate VLPacket_zero memory_below_4GiB
    {| command_ := None; response_ := Some (RDownload acked) |} download_reply
  = Some ({| command_ := None; response_ := None |},
          [DidDownloadFile 3 [9; 1; 2; 3; 4]; DidFinishWaiting]).
Proof.
  intros c acked.
  exact (NotifyValue_download_reply ok_delegate VLPacket_zero memory_below_4GiB
           acked None
           download_reply (snd (VLReadPacket VLPacket_zero download_reply))
           eq_refl
           ltac:(vm_compute; reflexivity)
           ltac:(vm_compute; discriminate)).
Defined.

Lemma NotifyValue_download_ack_witness :
  let file := DownloadCommand_new2 3 DownloadFile_on_finish in
  let directory := DownloadCommand_new2 0 DownloadDirectory_on_finish in
  NotifyValue ok_delegate VLPacket_zero memory_below_4GiB
    {| command_ := None; response_ := Some (RDownload file) |} download_ack
  = Some (download_acked, []) /\
  NotifyValue ok_delegate VLPacket_zero memory_below_4GiB
    {| command_ := None; response_ := Some (RDownload directory) |}
    directory_ack_max
  = None.
Proof.
  intros file directory. split.
  - exact (NotifyValue_download_ack ok_delegate VLPacket_zero memory_below_4GiB
             file None
             download_ack (snd (VLReadPacket VLPacket_zero download_ack))
             eq_refl eq_refl
             ltac:(vm_compute; reflexivity)
             ltac:(vm_compute; lia)
             ltac:(vm_compute; reflexivity)
             ltac:(vm_compute; reflexivity)
             ltac:(vm_compute; reflexivity)).
  - exact (NotifyValue_download_ack ok_delegate VLPacket_zero memory_below_4GiB
             directory None
             directory_ack_max
             (snd (VLReadPacket VLPacket_zero directory_ack_max))
             eq_refl eq_refl
             ltac:(vm_compute; reflexivity)
             ltac:(vm_compute; lia)
             ltac:(vm_compute; reflexivity)
             ltac:(vm_compute; reflexivity)
             ltac:(vm_compute; reflexivity)).
Defined.

(** ** Issuing commands, erase and the two slots *)

Lemma endian_read16_at (pre post : list Z) (x : Z) :
  0 <= x < 2 ^ 16 ->
  OSReadLittleInt16 (pre ++ VLWriteLittleInt16 x ++ post) (length pre) = x.
Proof.
  intros Hx. rewrite OSReadLittleInt16_app by reflexivity.
  apply read_write_int16. lia.
Qed.

Lemma endian_read32_at (pre post : list Z) (x : Z) :
  0 <= x < 2 ^ 32 ->
  OSReadLittleInt32 (pre ++ VLWriteLittleInt32 x ++ post) (length pre) = x.
Proof.
  intros Hx. rewrite OSReadLittleInt32_app by reflexivity.
  apply read_write_int32. exact Hx.
Qed.

(** The wire bytes of a packet made by the host. *)

Lemma VLMakePacket_wire (seqno cmd_id : Z) (payload0 : list Z) :
  0 <= seqno <= 7 -> 0 <= cmd_id < 65536 -> (length payload0 <= 14)%nat ->
  exists c0,
    VLWritePacket (VLMakePacket seqno cmd_id payload0)
    = c0 :: Z.of_nat (length payload0) :: kPeerHost :: kPeerViiiiva
         :: VLWriteLittleInt16 cmd_id ++ payload0 /\
    Z.shiftr c0 5 = seqno /\
    forall dst, fst (VLReadPacket dst (VLWritePacket (VLMakePacket seqno cmd_id payload0))) = 0.
Proof.
  intros Hs Hc Hlen.
  rewrite VLWritePacket_VLMakePacket, VLMakePacket_crc by exact Hlen.
  set (tail := Z.of_nat (length payload0) :: kPeerHost :: kPeerViiiiva
                 :: VLWriteLittleInt16 cmd_id ++ payload0).
  destruct (seqno_crc_byte seqno (crc tail) Hs (crc_is_byte tail))
    as (Hb & Hland & Hshr).
  eexists. split; [reflexivity|]. split; [exact Hshr|].
  intros dst. apply VLReadPacket_accepts. split.
  - unfold header_ok, tail, byte_at, kPacketMaxLength, kPacketMinLength,
      kPacketOffsetPayload.
    cbn [length nth VLWriteLittleInt16 app]. lia.
  - exact Hland.
Qed.

(** X16: the packet of a download request is 16 bytes on the wire, has
    the id 0x010b and the end sequence number, is accepted by
    [VLReadPacket], and its payload decodes to the index, the offset and
    the length of the request. *)

Theorem DownloadCommand_packet (c : DownloadCommand) :
  0 <= dl_index_ c < 2 ^ 16 -> 0 <= offset_ c < 2 ^ 32 ->
  0 <= length_ c < 2 ^ 32 ->
  let value := VLWritePacket (DownloadCommand_MakeCommandPacket c) in
  length value = 16%nat /\
  Z.shiftr (byte_at value 0) 5 = kVLSeqnoEnd /\
  OSReadLittleInt16 value 4 = kCommandDownload /\
  OSReadLittleInt16 value 6 = dl_index_ c /\
  OSReadLittleInt32 value 8 = offset_ c /\
  OSReadLittleInt32 value 12 = length_ c /\
  forall dst, fst (VLReadPacket dst value) = 0.
Proof.
  intros Hi Ho Hl value. subst value. unfold DownloadCommand_MakeCommandPacket.
  destruct (VLMakePacket_wire kVLSeqnoEnd kCommandDownload
              (VLWriteLittleInt16 (dl_index_ c) ++ VLWriteLittleInt32 (offset_ c)
                 ++ VLWriteLittleInt32 (length_ c)))
    as (c0 & Hw & Hseq & Hread);
    [unfold kVLSeqnoEnd; lia | unfold kCommandDownload; lia | cbn; lia |].
  split; [rewrite Hw; reflexivity|].
  split; [rewrite Hw; exact Hseq|].
  split; [|split; [|split; [|split; [|exact Hread]]]]; rewrite Hw.
  - apply (endian_read16_at [c0; 10; kPeerHost; kPeerViiiiva]);
      unfold kCommandDownload; lia.
  - apply (endian_read16_at
             ([c0; 10; kPeerHost; kPeerViiiiva] ++ VLWriteLittleInt16 kCommandDownload)
             _ (dl_index_ c)). lia.
  - apply (endian_read32_at
             ([c0; 10; kPeerHost; kPeerViiiiva] ++ VLWriteLittleInt16 kCommandDownload
                ++ VLWriteLittleInt16 (dl_index_ c))
             _ (offset_ c)). lia.
  - apply (endian_read32_at
             ([c0; 10; kPeerHost; kPeerViiiiva] ++ VLWriteLittleInt16 kCommandDownload
                ++ VLWriteLittleInt16 (dl_index_ c) ++ VLWriteLittleInt32 (offset_ c))
             [] (length_ c)). lia.
Qed.

Lemma DownloadCommand_packet_witness :
  let value :=
    VLWritePacket
      (DownloadCommand_MakeCommandPacket
         (DownloadCommand_new2 3 DownloadFile_on_finish)) in
  length value = 16%nat /\
  Z.shiftr (byte_at value 0) 5 = kVLSeqnoEnd /\
  OSReadLittleInt16 value 4 = kCommandDownload /\
  OSReadLittleInt16 value 6 = 3 /\
  OSReadLittleInt32 value 8 = 0 /\
  OSReadLittleInt32 value 12 = 0xffffffff /\
  forall dst, fst (VLReadPacket dst value) = 0.
Proof.
  apply (DownloadCommand_packet (DownloadCommand_new2 3 DownloadFile_on_finish));
    cbn; lia.
Defined.

Section IssueProperties.

Variable delegate_WriteValue : list Z -> Z.

(** What [WritePacket] reports: the value is always handed to the
    delegate; a failed write is followed by the error, a successful one
    by the start of the wait if one was asked for. *)

Lemma WritePacket_events (packet : VLPacket) (wait_for_ack : bool) :
  WritePacket delegate_WriteValue packet wait_for_ack
  = WriteValue (VLWritePacket packet)
      :: (if delegate_WriteValue (VLWritePacket packet) <? 0
          then [DidError kVLManagerErrorUnexpected "WriteValue"]
          else if wait_for_ack then [DidStartWaiting] else []).
Proof.
  unfold WritePacket, VLWritePacket, VLPacketLength. cbv zeta.
  rewrite (Z.add_comm (payload_length packet)).
  destruct (_ <? 0); [reflexivity|]. destruct wait_for_ack; reflexivity.
Qed.

(** X17: [set_time] writes a 10-byte value with the id 0x0108 whose
    payload, read as a little-endian device time and converted back, is
    the POSIX time that was passed in; the wait starts unless the write
    fails. *)

Theorem SetTime_packet (m : Manager) (posix_time : Z) :
  kAntEpoch <= posix_time < kAntEpoch + 2 ^ 32 ->
  exists value,
    snd (SetTime delegate_WriteValue m posix_time)
    = [WriteValue value;
       if delegate_WriteValue value <? 0
       then DidError kVLManagerErrorUnexpected "WriteValue"
       else DidStartWaiting] /\
    length value = 10%nat /\
    OSReadLittleInt16 value 4 = kCommandSetTime /\
    VLGetPosixTimeFromViva (OSReadLittleInt32 value 6) = posix_time /\
    forall dst, fst (VLReadPacket dst value) = 0.
Proof.
  intros Ht. unfold SetTime. cbv zeta. cbn [snd Command_MakeCommandPacket].
  rewrite WritePacket_events. unfold SetTimeCommand_MakeCommandPacket.
  cbn [time_ SetTimeCommand_new].
  assert (Hd : 0 <= VLGetVivaTimeFromPosix posix_time < 2 ^ 32)
    by (unfold VLGetVivaTimeFromPosix; apply Z.mod_pos_bound; lia).
  destruct (VLMakePacket_wire kVLSeqnoEnd kCommandSetTime
              (VLWriteLittleInt32 (VLGetVivaTimeFromPosix posix_time)))
    as (c0 & Hw & Hseq & Hread);
    [unfold kVLSeqnoEnd; lia | unfold kCommandSetTime; lia | cbn; lia |].
  exists (VLWritePacket
            (VLMakePacket kVLSeqnoEnd kCommandSetTime
               (VLWriteLittleInt32 (VLGetVivaTimeFromPosix posix_time)))).
  split; [destruct (_ <? 0); reflexivity|].
  split; [rewrite Hw; reflexivity|].
  split; [|split; [|exact Hread]]; rewrite Hw.
  - apply (endian_read16_at [c0; 4; kPeerHost; kPeerViiiiva]).
    unfold kCommandSetTime. lia.
  - match goal with
    | |- VLGetPosixTimeFromViva ?r = _ =>
        replace r with (VLGetVivaTimeFromPosix posix_time)
          by (symmetry;
              exact (endian_read32_at
                       ([c0; 4; kPeerHost; kPeerViiiiva]
                          ++ VLWriteLittleInt16 kCommandSetTime) [] _ Hd))
    end.
    unfold VLGetPosixTimeFromViva, VLGetVivaTimeFromPosix, to_time_t, kAntEpoch in *.
    rewrite (Z.mod_small (posix_time - 631065600)) by lia.
    rewrite (Z.mod_small (posix_time - 631065600 + 631065600)) by lia.
    rewrite Z.mod_small by lia. lia.
Qed.

(** X18: [erase_file] writes an 8-byte value with the id 0x040b whose
    payload is the little-endian index; the wait starts unless the write
    fails. *)

Theorem EraseFile_packet (m : Manager) (index : Z) :
  0 <= index < 2 ^ 16 ->
  exists value,
    snd (EraseFile delegate_WriteValue m index)
    = [WriteValue value;
       if delegate_WriteValue value <? 0
       then DidError kVLManagerErrorUnexpected "WriteValue"
       else DidStartWaiting] /\
    length value = 8%nat /\
    Z.shiftr (byte_at value 0) 5 = kVLSeqnoEnd /\
    OSReadLittleInt16 value 4 = kCommandErase /\
    OSReadLittleInt16 value 6 = index /\
    forall dst, fst (VLReadPacket dst value) = 0.
Proof.
  intros Hi. unfold EraseFile. cbv zeta.
  cbn [snd CommandWithReply_MakeCommandPacket].
  rewrite WritePacket_events. unfold EraseCommand_MakeCommandPacket.
  cbn [er_index_ EraseCommand_new].
  destruct (VLMakePacket_wire kVLSeqnoEnd kCommandErase (VLWriteLittleInt16 index))
    as (c0 & Hw & Hseq & Hread);
    [unfold kVLSeqnoEnd; lia | unfold kCommandErase; lia | cbn; lia |].
  exists (VLWritePacket
            (VLMakePacket kVLSeqnoEnd kCommandErase (VLWriteLittleInt16 index))).
  split; [destruct (_ <? 0); reflexivity|].
  split; [rewrite Hw; reflexivity|].
  split; [rewrite Hw; exact Hseq|].
  split; [|split; [|exact Hread]]; rewrite Hw.
  - apply (endian_read16_at [c0; 2; kPeerHost; kPeerViiiiva]).
    unfold kCommandErase. lia.
  - apply (endian_read16_at
             ([c0; 2; kPeerHost; kPeerViiiiva] ++ VLWriteLittleInt16 kCommandErase)
             [] index). lia.
Qed.

Variable uninit : VLPacket.
Variable reserve_returns : Z -> bool.

(** X19: the manager never holds a simple command and a reply command at
    the same time: every operation that issues a command leaves exactly one
    slot occupied whatever was pending before, and [notify_value] and
    [notify_timeout] never fill a slot that was empty. *)

Theorem Manager_one_slot (m : Manager) (value : list Z) (index posix_time : Z) :
  one_slot (fst (DownloadDirectory delegate_WriteValue m)) /\
  one_slot (fst (DownloadFile delegate_WriteValue m index)) /\
  one_slot (fst (EraseFile delegate_WriteValue m index)) /\
  one_slot (fst (SetTime delegate_WriteValue m posix_time)) /\
  let m' :=
    state_after m
      (NotifyValue delegate_WriteValue uninit reserve_returns m value) in
  (command_ m = None -> command_ m' = None) /\
  (response_ m = None -> response_ m' = None) /\
  (command_ m = None -> command_ (fst (NotifyTimeout m)) = None) /\
  (response_ m = None -> response_ (fst (NotifyTimeout m)) = None).
Proof.
  unfold one_slot.
  split; [left; reflexivity|]. split; [left; reflexivity|].
  split; [left; reflexivity|]. split; [right; reflexivity|].
  cbv zeta.
  assert (Hnv : forall m',
             state_after m
               (NotifyValue delegate_WriteValue uninit reserve_returns m value)
             = m' ->
             (command_ m = None -> command_ m' = None) /\
             (response_ m = None -> response_ m' = None)).
  { intros m' <-. unfold NotifyValue, selected_command, store_selected.
    destruct m as [c r]. cbn [command_ response_].
    destruct r as [r|]; [|destruct c as [c|]];
      repeat match goal with
             | |- context [match ?p with Some _ => _ | None => _ end] =>
                 destruct p as [[? ?]|]
             | |- context [let '(_, _) := ?p in _] => destruct p
             | |- context [if ?b then _ else _] => destruct b
             end; cbn [state_after command_ response_]; split; intros H;
        first [exact H | reflexivity | discriminate H]. }
  destruct (Hnv _ eq_refl) as [H1 H2].
  split; [exact H1|]. split; [exact H2|].
  unfold NotifyTimeout. destruct (command_ m) eqn:Hc; cbn [fst command_ response_].
  - split; [discriminate | tauto].
  - split; [intros _; exact Hc | tauto].
Qed.

(** X20: [notify_value] never empties the simple-command slot: a SetTime
    command stays there also after it has completed, and is only removed
    by [notify_timeout] or by issuing another command. *)

Theorem NotifyValue_keeps_simple_command (m : Manager) (value : list Z) :
  is_Some (command_ m) ->
  is_Some (command_ (state_after m
                       (NotifyValue delegate_WriteValue uninit reserve_returns
                          m value))).
Proof.
  intros [c Hc]. unfold NotifyValue, selected_command, store_selected.
  destruct m as [c0 r]. cbn [command_ response_] in *. subst c0.
  destruct r as [r|];
    repeat match goal with
           | |- context [match ?p with Some _ => _ | None => _ end] =>
               destruct p as [[? ?]|]
           | |- context [let '(_, _) := ?p in _] => destruct p
           | |- context [if ?b then _ else _] => destruct b
           end; cbn [state_after command_ response_]; eexists; reflexivity.
Qed.

(** X21: [notify_timeout] only acts on a pending simple command: it
    reports the timeout, ends the wait and drops the command.  A pending
    download or erase is left in place, without any event. *)

Theorem NotifyTimeout_scope (m : Manager) (index posix_time : Z) :
  NotifyTimeout (fst (DownloadDirectory delegate_WriteValue m))
  = (fst (DownloadDirectory delegate_WriteValue m), []) /\
  NotifyTimeout (fst (DownloadFile delegate_WriteValue m index))
  = (fst (DownloadFile delegate_WriteValue m index), []) /\
  NotifyTimeout (fst (EraseFile delegate_WriteValue m index))
  = (fst (EraseFile delegate_WriteValue m index), []) /\
  NotifyTimeout (fst (SetTime delegate_WriteValue m posix_time))
  = (Manager_new,
     [DidError kVLManagerErrorUnexpected
        "set time command: timeout waiting for command";
      DidFinishWaiting]) /\
  (response_ (fst (NotifyTimeout m)) = response_ m).
Proof.
  repeat split. unfold NotifyTimeout. destruct (command_ m); reflexivity.
Qed.

(** X22: in the acknowledgement phase of an erase, a well-framed value
    marked device-to-host is accepted exactly when it carries the
    acknowledgement id of the command, and is reported as [BadPayload]
    otherwise; a value with other peer bytes is dropped without any
    report.  An accepted acknowledgement reports nothing. *)

Theorem NotifyValue_erase_ack (e : EraseCommand) (simple : option Command)
    (value : list Z) (packet : VLPacket) :
  er_has_ack_ e = false -> is_finished_ e = false ->
  VLReadPacket uninit value = (0, packet) ->
  let m := {| command_ := simple; response_ := Some (RErase e) |} in
  NotifyValue delegate_WriteValue uninit reserve_returns m value
  = Some
      (if (byte_at value 2 =? kPeerViiiiva) && (byte_at value 3 =? kPeerHost)
       then
         if OSReadLittleInt16 value 4 =? AcknowledgementForCommand (er_cmd_ e)
         then ({| command_ := simple;
                  response_ :=
                    Some (RErase
                            {| er_cmd_ := er_cmd_ e;
                               er_reply_cmd_ := er_reply_cmd_ e;
                               er_has_ack_ := true;
                               er_on_finish_ := er_on_finish_ e;
                               er_index_ := er_index_ e; is_ok_ := is_ok_ e;
                               is_finished_ := false |}) |},
               [])
         else (m, [DidError kVLManagerErrorBadPayload
                     "erase command: invalid value notification"])
       else (m, [])).
Proof.
  intros Hack Hfin Hread m.
  destruct (VLReadPacket_peers uninit value packet Hread) as (Hps & Hpr & Hpc).
  unfold NotifyValue, selected_command. cbn [response_ m].
  rewrite Hread. cbn [Z.eqb negb Command_ReadPacket CommandWithReply_ReadPacket].
  unfold EraseCommand_ReadPacket. rewrite Hack.
  unfold EraseCommand_ReadAck, ReadAck, VLValidatePacketFromViva.
  rewrite Hps, Hpr, Hpc. cbv zeta.
  destruct (byte_at value 2 =? kPeerViiiiva);
    destruct (byte_at value 3 =? kPeerHost); cbn [negb orb andb Z.eqb];
    try (cbn [Z.ltb Z.compare Command_MaybeFinish CommandWithReply_MaybeFinish];
         unfold EraseCommand_MaybeFinish, store_selected;
         cbn [response_ command_]; rewrite Hack; reflexivity).
  destruct (OSReadLittleInt16 value 4 =? AcknowledgementForCommand (er_cmd_ e));
    cbn [negb Z.eqb Z.ltb Z.compare].
  - cbn [Command_MaybeFinish CommandWithReply_MaybeFinish].
    unfold EraseCommand_MaybeFinish, store_selected.
    cbn [response_ command_ er_has_ack_ is_finished_ andb]. rewrite Hfin.
    reflexivity.
  - unfold store_selected. cbn [response_ command_]. reflexivity.
Qed.

(** X23: in the reply phase of an erase, a well-framed value is accepted
    exactly when it is marked device-to-host, carries the reply id 0x050b
    and is seven bytes long with a zero status byte.  Then
    [did_finish_waiting] is reported, the acknowledgement of the reply is
    written without a new wait, and the reply slot is released; the
    completion callback is not called.  Any other value is reported as
    [BadPayload] and changes nothing. *)

Theorem NotifyValue_erase_reply (e : EraseCommand) (simple : option Command)
    (value : list Z) (packet : VLPacket) :
  er_has_ack_ e = true -> is_finished_ e = false ->
  VLReadPacket uninit value = (0, packet) ->
  let m := {| command_ := simple; response_ := Some (RErase e) |} in
  NotifyValue delegate_WriteValue uninit reserve_returns m value
  = Some
      (if (byte_at value 2 =? kPeerViiiiva) && (byte_at value 3 =? kPeerHost) &&
          (OSReadLittleInt16 value 4 =? kCommandEraseReply) &&
          (length value =? 7)%nat && (byte_at value 6 =? 0)
       then ({| command_ := simple; response_ := None |},
             DidFinishWaiting
               :: WritePacket delegate_WriteValue
                    (VLMakeAckPacket (er_reply_cmd_ e)) false)
       else (m, [DidError kVLManagerErrorBadPayload
                   "erase command: invalid value notification"])).
Proof.
  intros Hack Hfin Hread m.
  destruct (VLReadPacket_peers uninit value packet Hread) as (Hps & Hpr & Hpc).
  destruct (VLReadPacket_payload_length uninit value packet Hread) as [Hlen _].
  unfold NotifyValue, selected_command. cbn [response_ m].
  rewrite Hread. cbn [Z.eqb negb Command_ReadPacket CommandWithReply_ReadPacket].
  unfold EraseCommand_ReadPacket. rewrite Hack.
  unfold EraseCommand_ReadReply, VLValidatePacketFromViva.
  rewrite Hack, Hfin, Hps, Hpr, Hpc. cbn [negb orb].
  destruct (Nat.eqb_spec (length value) 7) as [H7 | H7].
  - rewrite (VLReadPacket_payload_byte uninit value packet 0 Hread) by lia.
    cbn [Nat.add].
    replace (payload_length packet =? 1) with true by lia.
    destruct (byte_at value 2 =? kPeerViiiiva);
      destruct (byte_at value 3 =? kPeerHost);
      destruct (OSReadLittleInt16 value 4 =? kCommandEraseReply);
      destruct (byte_at value 6 =? 0);
      cbn [negb orb andb Z.eqb Z.ltb Z.compare]; reflexivity.
  - replace (payload_length packet =? 1) with false by lia.
    rewrite !andb_false_r, !orb_true_r. cbn [andb orb negb].
    destruct (negb (OSReadLittleInt16 value 4 =? kCommandEraseReply));
      cbn [orb Z.ltb Z.compare]; unfold store_selected;
      cbn [response_ command_]; reflexivity.
Qed.

End IssueProperties.

Lemma SetTime_packet_witness :
  exists value,
    snd (SetTime ok_delegate Manager_new 1600000000)
    = [WriteValue value;
       if ok_delegate value <? 0
       then DidError kVLManagerErrorUnexpected "WriteValue"
       else DidStartWaiting] /\
    length value = 10%nat /\
    OSReadLittleInt16 value 4 = kCommandSetTime /\
    VLGetPosixTimeFromViva (OSReadLittleInt32 value 6) = 1600000000 /\
    forall dst, fst (VLReadPacket dst value) = 0.
Proof.
  apply (SetTime_packet ok_delegate Manager_new 1600000000).
  unfold kAntEpoch. lia.
Defined.

Lemma EraseFile_packet_witness :
  exists value,
    snd (EraseFile ok_delegate Manager_new 5)
    = [WriteValue value;
       if ok_delegate value <? 0
       then DidError kVLManagerErrorUnexpected "WriteValue"
       else DidStartWaiting] /\
    length value = 8%nat /\
    Z.shiftr (byte_at value 0) 5 = kVLSeqnoEnd /\
    OSReadLittleInt16 value 4 = kCommandErase /\
    OSReadLittleInt16 value 6 = 5 /\
    forall dst, fst (VLReadPacket dst value) = 0.
Proof. apply (EraseFile_packet ok_delegate Manager_new 5). lia. Defined.

Lemma NotifyValue_keeps_simple_command_witness :
  is_Some (command_ (state_after set_time_issued
                       (NotifyValue ok_delegate VLPacket_zero memory_below_4GiB
                          set_time_issued set_time_ack))).
Proof.
  apply (NotifyValue_keeps_simple_command ok_delegate VLPacket_zero
           memory_below_4GiB set_time_issued set_time_ack).
  eexists. reflexivity.
Defined.

Lemma NotifyValue_erase_ack_witness :
  NotifyValue ok_delegate VLPacket_zero memory_below_4GiB
    {| command_ := None;
       response_ := Some (RErase (EraseCommand_new 5 (EraseFile_on_finish 5))) |}
    erase_ack
  = Some (erase_acked, []).
Proof.
  exact (NotifyValue_erase_ack ok_delegate VLPacket_zero memory_below_4GiB
           (EraseCommand_new 5 (EraseFile_on_finish 5)) None erase_ack
           (snd (VLReadPacket VLPacket_zero erase_ack))
           eq_refl eq_refl ltac:(vm_compute; reflexivity)).
Defined.

Lemma NotifyValue_erase_reply_witness :
  let e :=
    {| er_cmd_ := kCommandErase; er_reply_cmd_ := kCommandEraseReply;
       er_has_ack_ := true; er_on_finish_ := EraseFile_on_finish 5;
       er_index_ := 5; is_ok_ := false; is_finished_ := false |} in
  NotifyValue ok_delegate VLPacket_zero memory_below_4GiB
    {| command_ := None; response_ := Some (RErase e) |} erase_reply
  = Some ({| command_ := None; response_ := None |},
          [DidFinishWaiting; WriteValue [244; 0; 3; 1; 11; 133]]).
Proof.
  intros e.
  exact (NotifyValue_erase_reply ok_delegate VLPacket_zero memory_below_4GiB e None
           erase_reply
           (snd (VLReadPacket VLPacket_zero erase_reply))
           eq_refl eq_refl ltac:(vm_compute; reflexivity)).
Defined.

(** ** Directory reader *)

Lemma map_emplace_keyed (e : DirectoryEntry) (m : gmap Z DirectoryEntry) :
  keyed_by_index m ->
  keyed_by_index (map_emplace (DirectoryEntry_index e) e m).
Proof.
  intros Hm k e'. unfold map_emplace.
  destruct (m !! DirectoryEntry_index e) eqn:Hl; [apply Hm|].
  destruct (Z.eq_dec (DirectoryEntry_index e) k) as [<- | Hne].
  - rewrite lookup_insert_eq. now intros [= <-].
  - rewrite lookup_insert_ne by exact Hne. apply Hm.
Qed.

Lemma Read_loop_keyed (fuel : nat) (p : list Z) (m m' : gmap Z DirectoryEntry)
    (b : bool) :
  keyed_by_index m -> Read_loop fuel p m = Some (b, m') -> keyed_by_index m'.
Proof.
  revert p m. induction fuel as [|fuel IH]; intros p m Hm.
  - destruct p; cbn [Read_loop]; [now intros [= _ <-] | discriminate].
  - destruct p as [|x p]; cbn [Read_loop]; [now intros [= _ <-]|].
    unfold VLReadNextDirectoryEntry.
    destruct (length (x :: p) <? 16)%nat; cbn [Z.ltb Z.compare].
    + now intros [= _ <-].
    + apply IH. apply map_emplace_keyed. exact Hm.
Qed.

Lemma Read_keys_helper (r r' : Reader) (b : bool) :
  Read r = Some (b, r') -> keyed_by_index (entries_ r').
Proof.
  unfold Read.
  destruct (VLReadDirectoryHeader (src_ r)) as [[read hdr]|]; [|discriminate].
  cbv zeta. cbn [entries_].
  destruct (read <? 0).
  - intros [= _ <-]. cbn [entries_]. intros k e. now rewrite lookup_empty.
  - destruct (Read_loop _ _ _) as [[[|] entries]|] eqn:Hloop; [| |discriminate];
      intros [= _ <-]; cbn [entries_];
      apply (Read_loop_keyed _ _ _ _ _ ltac:(intros k e; now rewrite lookup_empty)
               Hloop).
Qed.

(** X24: whatever the buffer holds and however [Read] ends, every entry
    that it has put into the map is stored under its own index. *)
Theorem Read_keys_are_indices (r r' : Reader) (b : bool) :
  Read r = Some (b, r') ->
  forall k e, entries_ r' !! k = Some e -> DirectoryEntry_index e = k.
Proof.
  unfold Read.
  destruct (VLReadDirectoryHeader (src_ r)) as [[read hdr]|]; [|discriminate].
  cbv zeta. cbn [entries_].
  assert (Hempty : keyed_by_index ∅) by (intros k e; now rewrite lookup_empty).
  destruct (read <? 0).
  - intros [= _ <-]. exact Hempty.
  - destruct (Read_loop _ _ _) as [[[|] entries]|] eqn:Hloop; [| |discriminate];
      intros [= _ <-]; cbn [entries_];
      exact (Read_loop_keyed _ _ _ _ _ Hempty Hloop).
Qed.

Lemma Read_keys_are_indices_witness :
  DirectoryEntry_index
    (entry_of_bytes [2; 0; 128; 4; 2; 0; 0; 96; 200; 0; 0; 0; 0; 0; 0; 16])
  = 2.
Proof.
  apply (Read_keys_are_indices (Reader_new directory_blob) directory_reader true).
  - vm_compute. reflexivity.
  - vm_compute. reflexivity.
Defined.

(** X25: a buffer of at least 16 bytes whose header has the wrong
    version, record length or time format makes [Read] return false with
    an empty map, also when the reader held entries before; the directory
    download then reports [BadHeader] and no entry. *)
Theorem Read_bad_header (r : Reader) (index : Z) :
  (16 <= length (src_ r))%nat ->
  byte_at (src_ r) 0 <> 1 \/ byte_at (src_ r) 1 <> 16 \/ byte_at (src_ r) 2 <> 0 ->
  (exists r', Read r = Some (false, r') /\ entries_ r' = ∅ /\
              valid_ r' = valid_ r) /\
  DownloadDirectory_on_finish index (src_ r)
  = [DidError kVLManagerErrorBadHeader "Error parsing directory"].
Proof.
  intros Hlen Hbad.
  assert (Hh : exists code hdr,
             VLReadDirectoryHeader (src_ r) = Some (code, hdr) /\ code < 0).
  { unfold VLReadDirectoryHeader.
    destruct (Nat.ltb_spec (length (src_ r)) 16); [lia|].
    cbn [version record_length time_format bytes_header].
    unfold kExpectedDirectoryVersion, kExpectedRecordLength, kExpectedTimeFormat.
    destruct (Z.eqb_spec (byte_at (src_ r) 0) 1); cbn [negb];
      [|eexists _, _; split; [reflexivity | lia]].
    destruct (Z.eqb_spec (byte_at (src_ r) 1) 16); cbn [negb];
      [|eexists _, _; split; [reflexivity | lia]].
    destruct (Z.eqb_spec (byte_at (src_ r) 2) 0); cbn [negb];
      [|eexists _, _; split; [reflexivity | lia]].
    tauto. }
  destruct Hh as (code & hdr & Hh & Hneg).
  split.
  - unfold Read. rewrite Hh. cbv zeta.
    destruct (Z.ltb_spec code 0); [|lia].
    eexists. split; [reflexivity|]. split; reflexivity.
  - unfold DownloadDirectory_on_finish, Read, Reader_new.
    cbn [src_]. rewrite Hh. cbv zeta.
    destruct (Z.ltb_spec code 0); [|lia]. reflexivity.
Qed.

Lemma Read_bad_header_witness :
  let data := [2; 16; 0; 0; 0; 0; 0; 0; 0; 0; 0; 16; 0; 0; 0; 0] ++ dir_entry_a in
  (exists r', Read (Reader_new data) = Some (false, r') /\ entries_ r' = ∅ /\
              valid_ r' = false) /\
  DownloadDirectory_on_finish 0 data
  = [DidError kVLManagerErrorBadHeader "Error parsing directory"].
Proof.
  intros data. apply (Read_bad_header (Reader_new data) 0).
  - cbn. lia.
  - left. vm_compute. discriminate.
Defined.

Lemma Read_loop_tail (es : list (list Z)) (tail : list Z) (fuel : nat)
    (m : gmap Z DirectoryEntry) :
  Forall (fun e => length e = 16%nat) es ->
  (0 < length tail < 16)%nat ->
  (length (concat es ++ tail) <= fuel)%nat ->
  Read_loop fuel (concat es ++ tail) m
  = Some (false,
          fold_left (fun m e => map_emplace (DirectoryEntry_index e) e m)
            (map entry_of_bytes es) m).
Proof.
  intros Hes Htail. revert fuel m.
  induction Hes as [|e es He Hes IH]; intros fuel m Hfuel.
  - cbn [concat app] in *. destruct tail as [|x tail]; [cbn in Htail; lia|].
    destruct fuel as [|fuel]; [cbn [length] in Hfuel; lia|].
    cbn [Read_loop map fold_left]. unfold VLReadNextDirectoryEntry.
    destruct (Nat.ltb_spec (length (x :: tail)) 16); [reflexivity | lia].
  - cbn [concat] in *. rewrite <- app_assoc in *.
    rewrite length_app, He in Hfuel.
    destruct fuel as [|fuel]; [lia|].
    destruct e as [|x e]; [discriminate He|].
    cbn [app Read_loop].
    change (x :: e ++ concat es ++ tail) with ((x :: e) ++ concat es ++ tail).
    unfold VLReadNextDirectoryEntry.
    replace (length ((x :: e) ++ concat es ++ tail) <? 16)%nat with false
      by (rewrite length_app, He; lia).
    cbn [Z.ltb Z.compare]. change (Z.to_nat 16) with 16%nat.
    rewrite bytes_entry_app by exact He.
    rewrite drop_app_length' by (symmetry; exact He).
    rewrite IH by lia. reflexivity.
Qed.

(** X26: a directory whose last record is cut short is not read
    silently: with a valid header, complete 16-byte entries and 1 to 15
    trailing bytes [Read] returns false and leaves the reader not valid,
    after having stored the complete entries; the directory download
    reports [BadHeader] and no entry. *)
Theorem Read_truncated (h tail : list Z) (es : list (list Z)) (index : Z) :
  valid_header h -> Forall (fun e => length e = 16%nat) es ->
  (0 < length tail < 16)%nat ->
  (exists r',
      Read (Reader_new (h ++ concat es ++ tail)) = Some (false, r') /\
      valid_ r' = false /\
      forall idx : Z,
        entries_ r' !! idx
        = find (fun e => DirectoryEntry_index e =? idx) (map entry_of_bytes es)) /\
  DownloadDirectory_on_finish index (h ++ concat es ++ tail)
  = [DidError kVLManagerErrorBadHeader "Error parsing directory"].
Proof.
  intros Hh Hes Htail. pose proof Hh as (Hlen & _).
  assert (HR : Read (Reader_new (h ++ concat es ++ tail))
               = Some (false,
                       {| entries_ :=
                            fold_left
                              (fun m e => map_emplace (DirectoryEntry_index e) e m)
                              (map entry_of_bytes es) ∅;
                          hdr_ := bytes_header h;
                          src_ := h ++ concat es ++ tail;
                          valid_ := false |})).
  { unfold Read, Reader_new. cbn [src_ entries_ hdr_ valid_].
    rewrite VLReadDirectoryHeader_valid by exact Hh.
    cbn [Z.ltb Z.compare]. change (Z.to_nat 16) with 16%nat.
    rewrite drop_app_length' by (symmetry; exact Hlen).
    rewrite Read_loop_tail by (try assumption; rewrite !length_app; lia).
    reflexivity. }
  split.
  - eexists. split; [exact HR|]. split; [reflexivity|].
    intros idx. cbn [entries_]. rewrite emplace_fold_lookup, lookup_empty.
    reflexivity.
  - unfold DownloadDirectory_on_finish. rewrite HR. reflexivity.
Qed.

Lemma Read_truncated_witness :
  (exists r',
      Read (Reader_new (dir_header ++ concat [dir_entry_a] ++ [1; 2; 3]))
      = Some (false, r') /\
      valid_ r' = false /\
      forall idx : Z,
        entries_ r' !! idx
        = find (fun e => DirectoryEntry_index e =? idx)
            (map entry_of_bytes [dir_entry_a])) /\
  DownloadDirectory_on_finish 0 (dir_header ++ concat [dir_entry_a] ++ [1; 2; 3])
  = [DidError kVLManagerErrorBadHeader "Error parsing directory"].
Proof.
  apply (Read_truncated dir_header [1; 2; 3] [dir_entry_a] 0).
  - repeat split; reflexivity.
  - repeat constructor.
  - cbn. lia.
Defined.

#[local] Instance key_le_total : Total key_le.
Proof. intros x y. unfold key_le. lia. Qed.

#[local] Instance key_le_trans : Transitive key_le.
Proof. intros x y z. unfold key_le. lia. Qed.

Lemma StronglySorted_keys (l : list (Z * DirectoryEntry)) :
  StronglySorted key_le l -> NoDup (map fst l) ->
  StronglySorted Z.lt (map fst l).
Proof.
  induction 1 as [|x l Hl IH Hx]; cbn [map]; intros Hnd; [constructor|].
  apply NoDup_cons in Hnd as [Hnotin Hnd].
  constructor; [apply IH; exact Hnd|].
  apply List.Forall_forall. intros k Hk.
  apply in_map_iff in Hk as (y & <- & Hy).
  rewrite List.Forall_forall in Hx. specialize (Hx y Hy). unfold key_le in Hx.
  assert (x.1 <> y.1).
  { intros Heq. apply Hnotin. rewrite Heq. apply list_elem_of_In.
    apply in_map. exact Hy. }
  lia.
Qed.

Lemma entries_in_order_keys (m : gmap Z DirectoryEntry) :
  StronglySorted Z.lt (map fst (entries_in_order m)) /\
  length (entries_in_order m) = size m /\
  forall k e, In (k, e) (entries_in_order m) <-> m !! k = Some e.
Proof.
  unfold entries_in_order.
  pose proof (merge_sort_Permutation key_le (map_to_list m)) as Hp.
  split; [|split].
  - apply StronglySorted_keys; [apply StronglySorted_merge_sort; apply _|].
    rewrite Hp. exact (NoDup_fst_map_to_list m).
  - rewrite (Permutation_length Hp). apply length_map_to_list.
  - intros k e. rewrite <- elem_of_map_to_list, <- list_elem_of_In.
    now rewrite Hp.
Qed.

(** X27: when the downloaded directory parses, the callback reports one
    entry for every index in the map, in strictly ascending order of the
    index, and then the end of the directory. *)
Theorem DownloadDirectory_reports_ascending (index : Z) (data : list Z)
    (r : Reader) :
  Read (Reader_new data) = Some (true, r) ->
  exists entries : list VLDirectoryEntry,
    DownloadDirectory_on_finish index data
    = map DidParseDirectoryEntry entries ++ [DidFinishParsingDirectory] /\
    StronglySorted Z.lt (map de_index entries) /\
    length entries = size (entries_ r) /\
    forall e, In e entries <->
              exists raw, entries_ r !! de_index e = Some raw /\
                          e = DirectoryEntry_entry raw.
Proof.
  intros HR.
  pose proof (Read_keys_helper _ _ _ HR) as Hkey.
  destruct (entries_in_order_keys (entries_ r)) as (Hsorted & Hlen & Hin).
  exists (map (fun pair => DirectoryEntry_entry pair.2)
            (entries_in_order (entries_ r))).
  assert (Hidx : map de_index
                   (map (fun pair : Z * DirectoryEntry => DirectoryEntry_entry pair.2)
                      (entries_in_order (entries_ r)))
                 = map fst (entries_in_order (entries_ r))).
  { rewrite map_map. apply map_ext_in. intros [k e] Hke.
    cbn [fst snd de_index DirectoryEntry_entry].
    apply Hkey. apply Hin. exact Hke. }
  split; [|split; [|split]].
  - unfold DownloadDirectory_on_finish. rewrite HR.
    cbn [Reader_get dir_entries_]. now rewrite map_map.
  - rewrite Hidx. exact Hsorted.
  - rewrite length_map. exact Hlen.
  - intros e. rewrite in_map_iff. split.
    + intros ([k raw] & <- & Hk). cbn [snd]. exists raw. split; [|reflexivity].
      apply Hin in Hk. cbn [de_index DirectoryEntry_entry].
      rewrite (Hkey _ _ Hk). exact Hk.
    + intros (raw & Hl & ->). exists (de_index (DirectoryEntry_entry raw), raw).
      split; [reflexivity|]. apply Hin. exact Hl.
Qed.

Lemma DownloadDirectory_reports_ascending_witness :
  exists entries : list VLDirectoryEntry,
    DownloadDirectory_on_finish 0 directory_blob
    = map DidParseDirectoryEntry entries ++ [DidFinishParsingDirectory] /\
    StronglySorted Z.lt (map de_index entries) /\
    length entries = size (entries_ directory_reader) /\
    forall e, In e entries <->
              exists raw, entries_ directory_reader !! de_index e = Some raw /\
                          e = DirectoryEntry_entry raw.
Proof.
  apply (DownloadDirectory_reports_ascending 0 directory_blob directory_reader).
  vm_compute. reflexivity.
Defined.

Lemma lor_shiftl_low (a b n : Z) :
  0 <= n -> 0 <= a < 2 ^ n -> Z.lor a (Z.shiftl b n) = a + b * 2 ^ n.
Proof.
  intros Hn Ha. rewrite <- Z.shiftl_mul_pow2 by exact Hn.
  assert (Hland : Z.land a (Z.shiftl b n) = 0).
  { apply Z.bits_inj'. intros i Hi. rewrite Z.land_spec, Z.bits_0.
    destruct (Z.lt_ge_cases i n).
    - rewrite Z.shiftl_spec_low by lia. apply andb_false_r.
    - rewrite <- (Z.mod_small a (2 ^ n)) by lia.
      rewrite Z.mod_pow2_bits_high by lia. reflexivity. }
  rewrite <- Z.lxor_lor by exact Hland.
  symmetry. apply Z.add_nocarry_lxor. exact Hland.
Qed.

Lemma OSReadLittleInt16_value (a b : Z) :
  is_byte a -> is_byte b -> OSReadLittleInt16 [a; b] 0 = a + 256 * b.
Proof.
  unfold is_byte, OSReadLittleInt16, byte_at. intros Ha Hb. cbn [nth Nat.add].
  rewrite (lor_shiftl_low a b 8) by lia. rewrite Z.mod_small; lia.
Qed.

Lemma OSReadLittleInt32_value (a b c d : Z) :
  is_byte a -> is_byte b -> is_byte c -> is_byte d ->
  OSReadLittleInt32 [a; b; c; d] 0 = a + 256 * b + 65536 * c + 16777216 * d.
Proof.
  unfold is_byte, OSReadLittleInt32, byte_at. intros Ha Hb Hc Hd.
  cbn [nth Nat.add].
  rewrite (lor_shiftl_low a b 8) by lia.
  rewrite (lor_shiftl_low (a + b * 2 ^ 8) c 16) by lia.
  rewrite (lor_shiftl_low (a + b * 2 ^ 8 + c * 2 ^ 16) d 24) by lia.
  rewrite Z.mod_small; lia.
Qed.

(** X28: the logical view of a 16-byte directory record: the index is
    bytes 0-1, the file type is byte 2 with the subtype (byte 3) as its
    high byte, the length is bytes 8-11 and the time is bytes 12-15 plus
    the device epoch, all little-endian. *)
Theorem DirectoryEntry_entry_value (b : list Z) :
  Forall is_byte b -> length b = 16%nat ->
  let le16 i := byte_at b i + 256 * byte_at b (i + 1) in
  let le32 i := byte_at b i + 256 * byte_at b (i + 1)
                + 65536 * byte_at b (i + 2) + 16777216 * byte_at b (i + 3) in
  DirectoryEntry_entry (entry_of_bytes b)
  = {| posix_time := le32 12%nat + kAntEpoch;
       de_length := le32 8%nat;
       de_index := le16 0%nat;
       de_file_type := le16 2%nat |}.
Proof.
  intros Hb Hlen.
  do 16 (destruct b as [|? b]; [discriminate Hlen|]).
  destruct b; [|discriminate Hlen].
  repeat match goal with
         | H : Forall _ (_ :: _) |- _ => apply Forall_cons in H as [? H]
         end.
  cbv zeta. unfold DirectoryEntry_entry, entry_of_bytes, byte_at.
  cbn [nth Nat.add]. f_equal.
  - unfold DirectoryEntry_time. cbn [entry_ raw_time bytes_entry take drop].
    rewrite OSReadLittleInt32_value by assumption.
    unfold VLGetPosixTimeFromViva, to_time_t, kAntEpoch, is_byte in *.
    rewrite (Z.mod_small (_ + 631065600)) by lia.
    rewrite Z.mod_small by lia. lia.
  - unfold DirectoryEntry_length. cbn [entry_ raw_length bytes_entry take drop].
    apply OSReadLittleInt32_value; assumption.
  - unfold DirectoryEntry_index. cbn [entry_ raw_index bytes_entry take drop].
    apply OSReadLittleInt16_value; assumption.
  - unfold DirectoryEntry_file_type.
    cbn [entry_ raw_file_type raw_subtype bytes_entry byte_at nth].
    unfold byte_at. cbn [nth].
    match goal with
    | |- Z.lor ?x (Z.shiftl ?y 8) mod _ = _ =>
        change (Z.lor x (Z.shiftl y 8) mod 2 ^ 16)
          with (OSReadLittleInt16 [x; y] 0)
    end.
    apply OSReadLittleInt16_value; assumption.
Qed.

Lemma DirectoryEntry_entry_value_witness :
  DirectoryEntry_entry (entry_of_bytes dir_entry_a)
  = {| posix_time := 0 + 256 * 0 + 65536 * 0 + 16777216 * 16 + kAntEpoch;
       de_length := 100 + 256 * 0 + 65536 * 0 + 16777216 * 0;
       de_index := 1 + 256 * 0;
       de_file_type := 128 + 256 * 4 |}.
Proof.
  apply (DirectoryEntry_entry_value dir_entry_a).
  - repeat constructor; unfold is_byte; lia.
  - reflexivity.
Defined.

(** ** Sequence numbers on the wire *)

(** X29: the sequence number of a well-framed value made of bytes is the
    top three bits of its first byte, hence in 0..7: the invalid sentinel
    8 of the burst tracker never comes from the wire. *)
Theorem VLReadPacket_seqno_range (dst : VLPacket) (value : list Z)
    (packet : VLPacket) :
  Forall is_byte value ->
  VLReadPacket dst value = (0, packet) ->
  VLPacketSeqno packet = Z.shiftr (byte_at value 0) 5 /\
  0 <= VLPacketSeqno packet <= 7 /\
  VLPacketSeqno packet <> kSeqnoInvalid.
Proof.
  intros Hbytes Hread.
  assert (Hok : header_ok value = true).
  { apply (proj1 (VLReadPacket_accepts dst value)). now rewrite Hread. }
  rewrite VLReadPacket_unfold, Hok in Hread. cbn [negb] in Hread.
  cbv zeta in Hread. destruct (Z.land 31 _ =? _); [|discriminate].
  injection Hread as <-.
  unfold header_ok, kPacketMaxLength, kPacketMinLength in Hok.
  unfold VLPacketSeqno. cbn [pkt_crc bytes_packet].
  rewrite byte_at_app_l by lia.
  assert (Hb : is_byte (byte_at value 0)).
  { destruct value as [|x value]; [cbn [length] in Hok; lia|].
    apply Forall_cons in Hbytes as [Hx _]. exact Hx. }
  unfold is_byte in Hb. rewrite Z.shiftr_div_pow2 by lia.
  change (2 ^ 5) with 32. unfold kSeqnoInvalid.
  assert (0 <= byte_at value 0 / 32 <= 7).
  { split; [apply Z.div_pos; lia|].
    apply Zlt_succ_le. apply Z.div_lt_upper_bound; lia. }
  repeat split; lia.
Qed.

Lemma VLReadPacket_seqno_range_witness :
  let packet := snd (VLReadPacket VLPacket_zero download_reply) in
  VLPacketSeqno packet = Z.shiftr (byte_at download_reply 0) 5 /\
  0 <= VLPacketSeqno packet <= 7 /\
  VLPacketSeqno packet <> kSeqnoInvalid.
Proof.
  apply (VLReadPacket_seqno_range VLPacket_zero download_reply).
  - vm_compute. repeat constructor; discriminate.
  - vm_compute. reflexivity.
Defined.

Lemma crc_detects_single_byte_witness :
  crc ([3; 1] ++ 7 :: [2]) <> crc ([3; 1] ++ 9 :: [2]).
Proof.
  apply (crc_detects_single_byte [3; 1] [2] 7 9);
    try (repeat constructor; unfold is_byte; lia); unfold is_byte; lia.
Defined.
